(** * Transaction-scoped Prisma client: the services, the interceptor and the
      [withTransactionClient] decorator of the repository

    The repository holds successive versions of [PrismaService] and of its
    [client] getter (sources: [src/prisma/transactional/readme.md], its
    longer copy [src/unnamed/part_000], and [src/decorator.ts], which goes on
    to the versions that keep a transaction identifier and that join the
    transaction of the caller), the [PrismaTransactionInterceptor], and the
    class decorator at the head of [src/decorator.ts].  Each is embedded
    below as functions of an explicit world; the properties of the design
    document are stated on these functions, version by version. *)

From Stdlib Require Import String Ascii List ZArith Lia Bool Arith.
Import ListNotations.

Local Open Scope string_scope.

(** ** Values shared by all parts *)

(** An error object: the fields the code reads are [message] and [stack];
    [name] tells a [TypeError] from a [SyntaxError]. *)
Record JsError : Type := mkError {
  name : string;
  message : string;
  stack : string
}.

(** What a [throw] or a rejected promise carries: any value.  The code
    reads [error.message] of what it catches, which throws on [undefined]
    and [null], gives [undefined] on any other value that has no such
    property, and the message of an error object. *)
Inductive Thrown : Type :=
| ThrownUndefined
| ThrownNull
| ThrownOther (text : string)
| ThrownError (e : JsError).

Coercion ThrownError : JsError >-> Thrown.

(** The settlement of an awaited call. *)
Inductive Outcome (A : Type) : Type :=
| Resolved (a : A)
| Rejected (e : Thrown).

Arguments Resolved {A} a.
Arguments Rejected {A} e.

(** The clients a repository can be handed.  [ServiceClient] is the client of
    the service itself ([this] while the service extends [PrismaClient],
    [this.prisma] once it holds one); [TxClient n] is the [tx] that the n-th
    object allocation gave to a [$transaction] callback; [NewClient n] is a
    [new PrismaClient()] built inside a getter. *)
Inductive Handle : Type :=
| ServiceClient
| TxClient (n : nat)
| NewClient (n : nat).

Definition Handle_eqb (a b : Handle) : bool :=
  match a, b with
  | ServiceClient, ServiceClient => true
  | TxClient n, TxClient m => Nat.eqb n m
  | NewClient n, NewClient m => Nat.eqb n m
  | _, _ => false
  end.

(** State of the connection behind [ServiceClient]. *)
Inductive Lifecycle : Type := Uninitialized | Ready | Closed.

(** What the getter's checks can find under [this.user]:
    nothing, or a delegate whose [findUnique] is or is not a function. *)
Inductive UserProp : Type :=
| UserMissing
| UserDelegate (findUnique_is_function : bool).

(** Calls that reach the database driver, in the order they are made. *)
Inductive Event : Type :=
| EvNew (n : nat)              (* new PrismaClient() *)
| EvConnect (h : Handle)       (* h.$connect() *)
| EvDisconnect (h : Handle)    (* h.$disconnect() *)
| EvBegin (n : nat)            (* $transaction opened transaction n *)
| EvCommit (n : nat)
| EvRollback (n : nat).

Inductive Level : Type := LvLog | LvDebug | LvWarn | LvError.

(** [randoms] is the environment of [Math.random]: the texts that
    [Math.random().toString(36)] gives at the coming draws, oldest first. *)
Record World : Type := mkWorld {
  lifecycle : Lifecycle;
  user : UserProp;
  _fallbackPrismaClient : option Handle;
  next_ref : nat;
  trace : list Event;
  console : list (Level * string);
  randoms : list string
}.

(** ** Async calls

    One call chain runs as a function of the value its [AsyncLocalStorage]
    shows and of the world; an [await] is sequencing, a rejected promise is
    [Rejected].  [S] is the type of the stored value: the transaction client
    in the earlier versions of the service ([Async]), a record in the later
    ones. *)
Definition Scoped (S A : Type) : Type :=
  option S -> World -> Outcome A * World.

Definition Async (A : Type) : Type := Scoped Handle A.

Definition ret {S A : Type} (a : A) : Scoped S A :=
  fun _ w => (Resolved a, w).

Definition throw {S A : Type} (e : Thrown) : Scoped S A :=
  fun _ w => (Rejected e, w).

Definition bind {S A B : Type} (m : Scoped S A) (k : A -> Scoped S B) : Scoped S B :=
  fun s w =>
    match m s w with
    | (Resolved a, w') => k a s w'
    | (Rejected e, w') => (Rejected e, w')
    end.

(** [try { m } catch (error) { h error }] *)
Definition try_catch {S A : Type} (m : Scoped S A) (h : Thrown -> Scoped S A)
  : Scoped S A :=
  fun s w =>
    match m s w with
    | (Resolved a, w') => (Resolved a, w')
    | (Rejected e, w') => h e s w'
    end.

Declare Scope async_scope.
Delimit Scope async_scope with async.
Notation "x <- m ;; k" := (bind m (fun x => k))
  (at level 100, m at next level, right associativity) : async_scope.
Notation "m ;;; k" := (bind m (fun _ => k))
  (at level 100, right associativity) : async_scope.
Local Open Scope async_scope.

Definition modify {S : Type} (f : World -> World) : Scoped S unit :=
  fun _ w => (Resolved tt, f w).

Definition gets {S A : Type} (f : World -> A) : Scoped S A :=
  fun _ w => (Resolved (f w), w).

(** The world once one more call has reached the driver. *)
Definition add_event (ev : Event) (w : World) : World :=
  mkWorld (lifecycle w) (user w) (_fallbackPrismaClient w)
          (next_ref w) (trace w ++ [ev]) (console w) (randoms w).

Definition emit {S : Type} (ev : Event) : Scoped S unit := modify (add_event ev).

(** The world once one more line has been printed. *)
Definition add_line (lv : Level) (msg : string) (w : World) : World :=
  mkWorld (lifecycle w) (user w) (_fallbackPrismaClient w)
          (next_ref w) (trace w) (console w ++ [(lv, msg)]) (randoms w).

(** [console.log], [console.warn], [console.error] and the Nest [Logger]. *)
Definition say {S : Type} (lv : Level) (msg : string) : Scoped S unit :=
  modify (add_line lv msg).

Definition set_lifecycle {S : Type} (l : Lifecycle) : Scoped S unit :=
  modify (fun w => mkWorld l (user w) (_fallbackPrismaClient w)
                           (next_ref w) (trace w) (console w) (randoms w)).

Definition set_fallback {S : Type} (h : Handle) : Scoped S unit :=
  modify (fun w => mkWorld (lifecycle w) (user w) (Some h)
                           (next_ref w) (trace w) (console w) (randoms w)).

(** The world once one more object has been allocated. *)
Definition bump (w : World) : World :=
  mkWorld (lifecycle w) (user w) (_fallbackPrismaClient w)
          (S (next_ref w)) (trace w) (console w) (randoms w).

(** A fresh object reference. *)
Definition fresh {S : Type} : Scoped S nat :=
  fun _ w => (Resolved (next_ref w), bump w).

(** The [TypeError] of reading property [k] of [undefined] or of [null]. *)
Definition cannot_read (of_what k : string) : JsError :=
  mkError "TypeError"
    ("Cannot read properties of " ++ of_what ++ " (reading '" ++ k ++ "')") "".

(** [error.message] inside a template literal: the [TypeError] of the read,
    or the text the template prints. *)
Definition message_text (error : Thrown) : JsError + string :=
  match error with
  | ThrownUndefined => inl (cannot_read "undefined" "message")
  | ThrownNull => inl (cannot_read "null" "message")
  | ThrownOther _ => inr "undefined"
  | ThrownError e => inr (message e)
  end.

Definition read_message {S : Type} (error : Thrown) : Scoped S string :=
  match message_text error with
  | inl type_error => throw type_error
  | inr text => ret text
  end.

(** ** async_hooks: [AsyncLocalStorage]

    Modelled from the spec: Node's [AsyncLocalStorage] is not code of the
    repository.  By section 4.1, [run(value, fn)] executes [fn] so that
    [getStore()] returns [value] for the whole extent of [fn], and what was
    visible before is visible again once [fn] has completed. *)
Module prismaClientContext.

Definition getStore {S : Type} : Scoped S (option S) :=
  fun s w => (Resolved s, w).

Definition run {S A : Type} (store : S) (fn : Scoped S A) : Scoped S A :=
  fun _ w => fn (Some store) w.

End prismaClientContext.

(** ** @prisma/client: the calls the services make on a [PrismaClient]

    Modelled from the spec: the Prisma client is an external collaborator.
    By section 6, the interactive transaction executes its callback with a
    transactional handle, commits if the callback returns normally, rolls
    back if it throws, and hands on the callback's value or its error
    unchanged; [$connect]/[$disconnect] establish and tear down the
    connection of the client they are called on. *)
Module PrismaClient.

Definition new {S : Type} : Scoped S Handle :=
  n <- fresh ;; emit (EvNew n) ;;; ret (NewClient n).

Definition dollar_connect {S : Type} (h : Handle) : Scoped S unit :=
  emit (EvConnect h) ;;;
  match h with
  | ServiceClient => set_lifecycle Ready
  | _ => ret tt
  end.

Definition dollar_disconnect {S : Type} (h : Handle) : Scoped S unit :=
  emit (EvDisconnect h) ;;;
  match h with
  | ServiceClient => set_lifecycle Closed
  | _ => ret tt
  end.

Definition dollar_transaction {S A : Type} (fn : Handle -> Scoped S A) : Scoped S A :=
  n <- fresh ;;
  emit (EvBegin n) ;;;
  try_catch
    (r <- fn (TxClient n) ;; emit (EvCommit n) ;;; ret r)
    (fun e => emit (EvRollback n) ;;; throw e).

End PrismaClient.

(** ** Helpers for the JavaScript of the services *)

(** [a || b] where [a] is an object or [undefined]: an object is truthy. *)
Definition js_or (a : option Handle) (b : Handle) : Handle :=
  match a with
  | Some tx => tx
  | None => b
  end.

(** The double quote that the console messages carry around [this]. *)
Definition dq : string := String (ascii_of_nat 34) EmptyString.

(** [this.user && typeof this.user === 'object'] *)
Definition user_is_object (u : UserProp) : bool :=
  match u with
  | UserMissing => false
  | UserDelegate _ => true
  end.

(** [typeof this.user.findUnique === 'function'], read once [this.user] is
    known to be there. *)
Definition findUnique_is_function (u : UserProp) : bool :=
  match u with
  | UserMissing => false
  | UserDelegate b => b
  end.

(** ** Step 1 of the readme: [class PrismaService extends PrismaClient] *)
Module Extends.

Definition onModuleInit : Async unit :=
  PrismaClient.dollar_connect ServiceClient.

Definition onModuleDestroy : Async unit :=
  PrismaClient.dollar_disconnect ServiceClient.

(** [return prismaClientContext.getStore() || this;] *)
Definition client : Async Handle :=
  store <- prismaClientContext.getStore ;;
  ret (js_or store ServiceClient).

Definition transaction {T : Type} (callback : Handle -> Async T) : Async T :=
  PrismaClient.dollar_transaction (fun tx =>
    prismaClientContext.run tx (callback tx)).

End Extends.

(** ** "Diagnostics 1": the getter that inspects [this] and returns it *)
Module Diagnostic.

Definition client : Async Handle :=
  store <- prismaClientContext.getStore ;;
  match store with
  | Some tx =>
      say LvLog "PrismaService.client: Using transaction client" ;;;
      ret tx
  | None =>
      say LvLog "PrismaService.client: Using default Prisma client" ;;;
      (* [this instanceof PrismaClient] holds: the class extends it *)
      say LvLog ("PrismaService.client: " ++ dq ++ "this" ++ dq
                 ++ " IS an instance of PrismaClient.") ;;;
      u <- gets user ;;
      (if user_is_object u then
         say LvLog ("PrismaService.client: " ++ dq ++ "this.user" ++ dq
                    ++ " property exists and is an object.") ;;;
         (if findUnique_is_function u then
            say LvLog ("PrismaService.client: " ++ dq ++ "this.user.findUnique"
                       ++ dq ++ " is a function. All good!")
          else
            say LvError ("PrismaService.client ERROR: " ++ dq
                         ++ "this.user.findUnique" ++ dq
                         ++ " is NOT a function, it is:"))
       else
         say LvError ("PrismaService.client ERROR: " ++ dq ++ "this.user" ++ dq
                      ++ " property is missing or not an object:")) ;;;
      ret ServiceClient
  end.

End Diagnostic.

(** ** "Diagnostics 2": the getter with the module-level fallback client

    The [.then]/[.catch] handlers of the fallback's [$connect()] run after
    the getter has returned and are left out. *)
Module Fallback.

Definition client : Async Handle :=
  store <- prismaClientContext.getStore ;;
  match store with
  | Some tx =>
      say LvLog "PrismaService.client: Using transaction client" ;;;
      ret tx
  | None =>
      say LvLog "PrismaService.client: Using default Prisma client" ;;;
      u <- gets user ;;
      if negb (user_is_object u) || negb (findUnique_is_function u) then
        say LvError ("PrismaService.client: " ++ dq ++ "this" ++ dq
                     ++ " is not functioning as PrismaClient. Attempting fallback.") ;;;
        fb <- gets _fallbackPrismaClient ;;
        match fb with
        | Some h => ret h
        | None =>
            h <- PrismaClient.new ;;
            set_fallback h ;;;
            PrismaClient.dollar_connect h ;;;
            ret h
        end
      else ret ServiceClient
  end.

End Fallback.

(** ** "Without interceptor and decorator": the temporary workaround *)
Module Workaround.

Definition onModuleInit : Async unit :=
  PrismaClient.dollar_connect ServiceClient.

Definition onModuleDestroy : Async unit :=
  PrismaClient.dollar_disconnect ServiceClient.

(** [!!(this as any).user && typeof (this as any).user.findUnique === 'function'] *)
Definition _hasPrismaClientMethods : Async bool :=
  u <- gets user ;;
  ret (user_is_object u && findUnique_is_function u).

Definition client : Async Handle :=
  store <- prismaClientContext.getStore ;;
  match store with
  | Some tx =>
      say LvLog "PrismaService.client: Using transaction client" ;;;
      ret tx
  | None =>
      say LvLog "PrismaService.client: Using default Prisma client" ;;;
      ok <- _hasPrismaClientMethods ;;
      if negb ok then
        say LvWarn "PrismaService.client: Default PrismaClient (this) is not fully initialized. Falling back to a new instance for non-transactional use. THIS IS A TEMPORARY WORKAROUND." ;;;
        PrismaClient.new
      else ret ServiceClient
  end.

Definition transaction {T : Type} (callback : Handle -> Async T) : Async T :=
  PrismaClient.dollar_transaction (fun tx =>
    prismaClientContext.run tx (callback tx)).

End Workaround.

(** ** "Solving the problem with this": the service holds a [PrismaClient] *)
Module Composed.

(** The constructor reads [process.env.DATABASE_URL]; an unset or empty
    value is falsy. *)
Definition constructor (DATABASE_URL : option string) : Outcome unit :=
  match DATABASE_URL with
  | None | Some "" => Rejected (mkError "Error" "DATABASE_URL is not set." "")
  | Some _ => Resolved tt
  end.

Definition onModuleInit : Async unit :=
  say LvLog "PrismaService: Connecting to database..." ;;;
  PrismaClient.dollar_connect ServiceClient ;;;
  say LvLog "PrismaService: Database connected.".

Definition onModuleDestroy : Async unit :=
  say LvLog "PrismaService: Disconnecting from database..." ;;;
  PrismaClient.dollar_disconnect ServiceClient ;;;
  say LvLog "PrismaService: Database disconnected.".

Definition client : Async Handle :=
  store <- prismaClientContext.getStore ;;
  match store with
  | Some tx =>
      say LvLog "PrismaService.client: Using transaction client" ;;;
      ret tx
  | None =>
      say LvLog "PrismaService.client: Using default Prisma client" ;;;
      ret ServiceClient
  end.

Definition transaction {T : Type} (callback : Async T) : Async T :=
  say LvLog "PrismaService.transaction: Entering interactive transaction." ;;;
  PrismaClient.dollar_transaction (fun tx =>
    say LvLog "PrismaService.transaction: Transaction client (tx) received from Prisma. Running callback in AsyncLocalStorage context." ;;;
    try_catch
      (result <- prismaClientContext.run tx callback ;;
       say LvLog "PrismaService.transaction: Callback executed. Transaction should commit." ;;;
       ret result)
      (fun error =>
         say LvError "PrismaService.transaction: Callback failed. Transaction will rollback." ;;;
         throw error)).

End Composed.

(** ** "Adding a transaction identifier": the store becomes a record
    ([src/decorator.ts], after the decorator) *)

(** [interface TransactionStore] *)
Record TransactionStore : Type := mkStore {
  txClient : Handle;
  transactionId : string
}.

(** [Math.random().toString(36)]: the next text of the environment; when
    the environment has run out, the text of the number 0. *)
Definition Math_random_toString36 {S : Type} : Scoped S string :=
  fun _ w =>
    (Resolved (hd "0" (randoms w)),
     mkWorld (lifecycle w) (user w) (_fallbackPrismaClient w)
             (next_ref w) (trace w) (console w) (tl (randoms w))).

(** [text.substring(2, 9)] *)
Definition substring_2_9 (text : string) : string := String.substring 2 7 text.

(** [Math.random().toString(36).substring(2, 9)] *)
Definition new_transactionId {S : Type} : Scoped S string :=
  text <- Math_random_toString36 ;; ret (substring_2_9 text).

(** [getLogPrefix()], as the repository and the service define it. *)
Definition getLogPrefix : Scoped TransactionStore string :=
  store <- prismaClientContext.getStore ;;
  ret (match store with
       | Some st => "[TX:" ++ transactionId st ++ "]"
       | None => "[NO_TX]"
       end).

Module Identified.

Definition constructor (DATABASE_URL : option string) : Outcome unit :=
  match DATABASE_URL with
  | None | Some "" => Rejected (mkError "Error" "DATABASE_URL is not set." "")
  | Some _ => Resolved tt
  end.

Definition onModuleInit : Scoped TransactionStore unit :=
  say LvLog "PrismaService: Connecting to database..." ;;;
  PrismaClient.dollar_connect ServiceClient ;;;
  say LvLog "PrismaService: Database connected.".

Definition onModuleDestroy : Scoped TransactionStore unit :=
  say LvLog "PrismaService: Disconnecting from database..." ;;;
  PrismaClient.dollar_disconnect ServiceClient ;;;
  say LvLog "PrismaService: Database disconnected.".

Definition client : Scoped TransactionStore Handle :=
  store <- prismaClientContext.getStore ;;
  match store with
  | Some st =>
      say LvLog ("[TX:" ++ transactionId st
                 ++ "] PrismaService.client: Using transaction client") ;;;
      ret (txClient st)
  | None =>
      say LvLog "PrismaService.client: Using default Prisma client" ;;;
      ret ServiceClient
  end.

(** [this._internalPrismaClient.$transaction(async (txClientFromPrisma) => { ... })] *)
Definition in_native_transaction {T : Type} (id : string)
    (callback : Scoped TransactionStore T) : Scoped TransactionStore T :=
  PrismaClient.dollar_transaction (fun txClientFromPrisma =>
    say LvLog ("[TX:" ++ id ++ "] PrismaService.transaction: Transaction client (tx) received from Prisma. Running callback in AsyncLocalStorage context.") ;;;
    try_catch
      (result <- prismaClientContext.run (mkStore txClientFromPrisma id) callback ;;
       say LvLog ("[TX:" ++ id ++ "] PrismaService.transaction: Callback executed. Transaction should commit.") ;;;
       ret result)
      (fun error =>
         text <- read_message error ;;
         say LvError ("[TX:" ++ id ++ "] PrismaService.transaction: Callback failed. Transaction will rollback. Error: " ++ text) ;;;
         throw error)).

Definition transaction {T : Type} (callback : Scoped TransactionStore T)
  : Scoped TransactionStore T :=
  id <- new_transactionId ;;
  say LvLog ("[TX:" ++ id ++ "] PrismaService.transaction: Entering interactive transaction.") ;;;
  in_native_transaction id callback.

End Identified.

(** ** "Using the parent transaction": the modified [transaction]

    The source elides the callback it hands to [$transaction] in the second
    scenario ("the code that puts the client and the identifier into the
    storage and runs the callback"): it is the one of the version before. *)
Module Joining.

Definition client : Scoped TransactionStore Handle := Identified.client.

Definition transaction {T : Type} (callback : Scoped TransactionStore T)
  : Scoped TransactionStore T :=
  existingStore <- prismaClientContext.getStore ;;
  match existingStore with
  | Some st =>
      say LvLog ("[TX:" ++ transactionId st
                 ++ "] PrismaService.transaction: Reusing existing transaction.") ;;;
      callback
  | None =>
      id <- new_transactionId ;;
      say LvLog ("[TX:" ++ id
                 ++ "] PrismaService.transaction: Starting new interactive transaction.") ;;;
      Identified.in_native_transaction id callback
  end.

End Joining.

(** ** rxjs and the Nest call handler

    Modelled from the spec: rxjs and Nest are not code of the repository
    (section 1 names the framework an external collaborator).  An observable
    is run to its end: it fails, or it completes, with a last value or
    without any.  [lastValueFrom] gives the last value and rejects with an
    [EmptyError] when there is none; [from] turns a promise into the
    observable of its value; [next.handle()] for a route handler that is an
    async method is the observable of what the method resolves to. *)
Module rxjs.

Definition Observable (T : Type) : Type := Async (option T).

Definition EmptyError : JsError :=
  mkError "EmptyError" "no elements in sequence" "".

Definition lastValueFrom {T : Type} (source : Observable T) : Async T :=
  last <- source ;;
  match last with
  | Some v => ret v
  | None => throw EmptyError
  end.

Definition from {T : Type} (promise : Async T) : Observable T :=
  v <- promise ;; ret (Some v).

(** [source.pipe(catchError(selector))] *)
Definition catchError {T : Type} (source : Observable T)
    (selector : Thrown -> Observable T) : Observable T :=
  try_catch source selector.

(** [throwError(() => error)] *)
Definition throwError {T : Type} (error : Thrown) : Observable T :=
  throw error.

End rxjs.

Module CallHandler.

Definition handle {T : Type} (route_handler : Async T) : rxjs.Observable T :=
  rxjs.from route_handler.

End CallHandler.

(** ** Step 3 of the readme: [PrismaTransactionInterceptor]

    [isTransactional] is what the reflector found under
    [TRANSACTIONAL_KEY]; [next_handle] is [next.handle()]. *)
Module PrismaTransactionInterceptor.

Definition intercept {T : Type} (isTransactional : bool)
    (next_handle : rxjs.Observable T) : rxjs.Observable T :=
  if negb isTransactional then next_handle
  else
    say LvDebug "Starting database transaction..." ;;;
    rxjs.catchError
      (rxjs.from
         (Extends.transaction (fun tx =>
            try_catch
              (result <- rxjs.lastValueFrom next_handle ;;
               say LvDebug "Transaction committed successfully." ;;;
               ret result)
              (fun error =>
                 text <- read_message error ;;
                 say LvError ("Transaction rolled back due to error: " ++ text) ;;;
                 throw error))))
      (fun error =>
         text <- read_message error ;;
         say LvError ("Failed to execute transaction: " ++ text) ;;;
         rxjs.throwError error).

End PrismaTransactionInterceptor.

(** ** [src/decorator.ts]: the class decorator [withTransactionClient] *)
Module Decorator.

(** The JavaScript values the decorator can meet in [args] and on a
    prototype.  A function value is a reference; its source text and its
    behaviour are given by the environment below. *)
#[warnings="-register-all"] Inductive JsValue : Type :=
| JsUndefined
| JsNull
| JsBoolean (b : bool)
| JsNumber (z : Z)
| JsString (s : string)
| JsObject (props : list (string * JsValue))
| JsFunction (ref : nat).

Definition typeof (v : JsValue) : string :=
  match v with
  | JsUndefined => "undefined"
  | JsNull => "object"
  | JsBoolean _ => "boolean"
  | JsNumber _ => "number"
  | JsString _ => "string"
  | JsObject _ => "object"
  | JsFunction _ => "function"
  end.

Definition is_null (v : JsValue) : bool :=
  match v with
  | JsNull => true
  | _ => false
  end.

Fixpoint lookup {A : Type} (k : string) (l : list (string * A)) : option A :=
  match l with
  | [] => None
  | (k', a) :: rest => if String.eqb k k' then Some a else lookup k rest
  end.

(** [v[k]] on a value that is neither [undefined] nor [null]. *)
Definition get_prop (v : JsValue) (k : string) : JsValue :=
  match v with
  | JsObject props =>
      match lookup k props with
      | Some x => x
      | None => JsUndefined
      end
  | _ => JsUndefined
  end.

(** [this] is [undefined] or [null]. *)
Definition is_nullish (v : JsValue) : bool :=
  match v with
  | JsUndefined | JsNull => true
  | _ => false
  end.

(** The [TypeError] of reading property [k] of the receiver [v], which is
    [undefined] or [null]. *)
Definition TypeError_cannot_read (v : JsValue) (k : string) : JsError :=
  cannot_read (match v with JsNull => "null" | _ => "undefined" end) k.

Definition SyntaxError_unexpected_identifier : JsError :=
  mkError "SyntaxError" "Unexpected identifier 'as'" "".

(** [v.k] as an expression: reading a property of [undefined] or [null]
    throws. *)
Definition get_member (v : JsValue) (k : string) : Outcome JsValue :=
  match v with
  | JsUndefined | JsNull => Rejected (TypeError_cannot_read v k)
  | _ => Resolved (get_prop v k)
  end.

(** *** String methods, on texts taken as sequences of code units *)

Definition nl : string := String (ascii_of_nat 10) EmptyString.

Definition is_line_terminator (c : ascii) : bool :=
  Ascii.eqb c (ascii_of_nat 10) || Ascii.eqb c (ascii_of_nat 13).

Definition starts_with (p s : string) : bool := String.prefix p s.

Fixpoint drop (n : nat) (s : string) : string :=
  match n, s with
  | 0, _ => s
  | S n', String _ s' => drop n' s'
  | S _, EmptyString => EmptyString
  end.

(** The rest of [s] after its first ["("], when no line terminator comes
    before it: what [.*?\(] consumes. *)
Fixpoint after_first_paren (s : string) : option string :=
  match s with
  | EmptyString => None
  | String c s' =>
      if Ascii.eqb c "("%char then Some s'
      else if is_line_terminator c then None
      else after_first_paren s'
  end.

(** [s.replace(/^function.*?\(/, 'function(')] *)
Definition replace_function_head (s : string) : string :=
  if starts_with "function" s then
    match after_first_paren (drop 8 s) with
    | Some rest => "function(" ++ rest
    | None => s
    end
  else s.

(** [s.indexOf(c)] for a one-character [c]. *)
Fixpoint indexOf_from (c : ascii) (s : string) (i : Z) : Z :=
  match s with
  | EmptyString => (-1)%Z
  | String c' s' => if Ascii.eqb c c' then i else indexOf_from c s' (i + 1)%Z
  end.

Definition indexOf (s : string) (c : ascii) : Z := indexOf_from c s 0%Z.

(** [s.lastIndexOf(c)] for a one-character [c]. *)
Fixpoint lastIndexOf_from (c : ascii) (s : string) (i last : Z) : Z :=
  match s with
  | EmptyString => last
  | String c' s' =>
      lastIndexOf_from c s' (i + 1)%Z (if Ascii.eqb c c' then i else last)
  end.

Definition lastIndexOf (s : string) (c : ascii) : Z :=
  lastIndexOf_from c s 0%Z (-1)%Z.

(** [s.slice(a, b)]: a negative index counts from the end. *)
Definition slice (s : string) (a b : Z) : string :=
  let len := Z.of_nat (String.length s) in
  let clamp := fun i : Z => if (i <? 0)%Z then Z.max (len + i) 0 else Z.min i len in
  let from := clamp a in
  let to := clamp b in
  if (from <? to)%Z then String.substring (Z.to_nat from) (Z.to_nat (to - from)) s
  else "".

Definition digit (n : nat) : string :=
  String (ascii_of_nat (48 + n)) EmptyString.

(** Decimal text of an index, as [`${i}`] prints it. *)
Fixpoint decimal (fuel n : nat) : string :=
  match fuel with
  | 0 => digit (n mod 10)
  | S fuel' =>
      if Nat.ltb n 10 then digit n
      else decimal fuel' (n / 10) ++ digit (n mod 10)
  end.

(** [args.map((_, i) => `arg${i}`)] *)
Definition arg_names {A : Type} (args : list A) : list string :=
  map (fun i => "arg" ++ decimal i i) (seq 0 (length args)).

(** *** The [Function] constructor

    The constructor belongs to the language, not to the repository (the
    design notes know the decorator as runtime method-body rewriting by
    string-based code generation).  In ECMAScript
    [new Function(p1, ..., pn, body)] parses [body] as a function body at
    the time it is called, and throws a [SyntaxError] if it does not parse,
    whether or not the function is ever invoked.  [accepts] stands for the
    parser's verdict on a body. *)
Record FunctionObject : Type := mkFunction {
  parameters : list string;
  body : string
}.

Definition new_Function (accepts : string -> bool)
    (params : list string) (text : string) : Outcome FunctionObject :=
  if accepts text then Resolved (mkFunction params text)
  else Rejected SyntaxError_unexpected_identifier.

Fixpoint first_line (s : string) : string :=
  match s with
  | EmptyString => EmptyString
  | String c s' => if is_line_terminator c then EmptyString else String c (first_line s')
  end.

(** The words of a line, split at spaces. *)
Fixpoint words_acc (s : string) (cur : string) : list string :=
  match s with
  | EmptyString => [cur]
  | String c s' =>
      if Ascii.eqb c " "%char then cur :: words_acc s' ""
      else words_acc s' (cur ++ String c EmptyString)
  end.

Definition words (s : string) : list string := words_acc s "".

Definition is_path_char (c : ascii) : bool :=
  let n := nat_of_ascii c in
  (Nat.leb 65 n && Nat.leb n 90) || (Nat.leb 97 n && Nat.leb n 122)
  || (Nat.leb 48 n && Nat.leb n 57)
  || Ascii.eqb c "_"%char || Ascii.eqb c "$"%char || Ascii.eqb c "."%char.

Fixpoint all_path_chars (s : string) : bool :=
  match s with
  | EmptyString => true
  | String c s' => is_path_char c && all_path_chars s'
  end.

Fixpoint last_char (s : string) : option ascii :=
  match s with
  | EmptyString => None
  | String c EmptyString => Some c
  | String _ s' => last_char s'
  end.

(** Words after which an identifier can still follow in an expression:
    [new as], [typeof as], [async as => ...] are JavaScript. *)
Definition takes_operand : list string :=
  ["async"; "await"; "yield"; "new"; "typeof"; "void"; "delete";
   "function"; "class"].

Fixpoint mem (x : string) (l : list string) : bool :=
  match l with
  | [] => false
  | y :: l' => String.eqb x y || mem x l'
  end.

(** A name or a property path that is a complete operand: [prismaClient],
    [this.prisma]. *)
Definition is_path (s : string) : bool :=
  all_path_chars s
  && match last_char s with
     | Some c => negb (Ascii.eqb c "."%char)
     | None => false
     end
  && negb (mem s takes_operand).

(** The one rule of the grammar that decides the bodies the decorator
    builds: in [const x = e as ...], with [e] a name or a property path,
    the initializer is complete at [e] and the identifier [as] follows it
    on the same line, so no statement can be read: a type assertion is
    TypeScript, not JavaScript.  The rule only ever rejects; a text it does
    not reject is taken to parse. *)
Definition ecma_accepts (text : string) : bool :=
  match words (first_line text) with
  | "const" :: _ :: "=" :: e :: "as" :: _ => negb (is_path e)
  | _ => true
  end.

(** *** The wrapper installed on each method *)

(** [typeof v === 'object' && v !== null && typeof v.$transaction === 'function'] *)
Definition is_transaction_client (v : JsValue) : bool :=
  String.eqb (typeof v) "object" && negb (is_null v)
  && String.eqb (typeof (get_prop v "$transaction")) "function".

(** [for (let i = args.length - 1; i >= 0; i--) if (...) { txArgIndex = i; break; }],
    entered with [i = n - 1]. *)
Fixpoint scan_down (args : list JsValue) (n : nat) : Z :=
  match n with
  | 0 => (-1)%Z
  | S i =>
      if is_transaction_client (nth i args JsUndefined) then Z.of_nat i
      else scan_down args i
  end.

Definition txArgIndex (args : list JsValue) : Z :=
  scan_down args (length args).

Definition txDeclaration (args : list JsValue) : string :=
  "const tx = "
  ++ (if (txArgIndex args >? -1)%Z then "prismaClient" else "this.prisma")
  ++ " as any;".

Definition functionString (source : string) : string :=
  replace_function_head source.

Definition methodBody (source : string) : string :=
  let fs := functionString source in
  slice fs (indexOf fs "{"%char + 1)%Z (lastIndexOf fs "}"%char).

Definition newMethodBody (source : string) (args : list JsValue) : string :=
  txDeclaration args ++ nl ++ methodBody source.

Inductive Descriptor : Type :=
| DataDescriptor (value : JsValue)
| AccessorDescriptor (get set : JsValue).

(** [descriptor?.value] *)
Definition descriptor_value (d : Descriptor) : JsValue :=
  match d with
  | DataDescriptor v => v
  | AccessorDescriptor _ _ => JsUndefined
  end.

(** What a property of the decorated prototype holds: its descriptor as it
    was, or the wrapper closed over [originalMethod]. *)
Inductive Slot : Type :=
| Kept (d : Descriptor)
| Wrapped (originalMethod : nat).

Section Environment.

(** The heap the methods work on, and for each function reference its
    source text ([toString()]) and what calling it does ([apply]). *)
Variable St : Type.
Variable toString : nat -> string.
Variable apply : nat -> JsValue -> list JsValue -> St -> Outcome JsValue * St.
Variable accepts : string -> bool.

(** [descriptor.value = function(...args) { ... }] *)
Definition wrapper (originalMethod : nat) (this : JsValue) (args : list JsValue)
  (st : St) : Outcome JsValue * St :=
  let i := txArgIndex args in
  match (if (i >? -1)%Z then Resolved (nth (Z.to_nat i) args JsUndefined)
         else get_member this "prisma") with
  | Rejected e => (Rejected e, st)
  | Resolved prismaClient =>
      match new_Function accepts (arg_names args)
              (newMethodBody (toString originalMethod) args) with
      | Rejected e => (Rejected e, st)
      | Resolved newFunction => apply originalMethod this args st
      end
  end.

(** The body of the loop: what [Object.defineProperty(original, key, descriptor)]
    leaves under [key], or the descriptor as it was when the test fails. *)
Definition decorate (key : string) (descriptor : Descriptor) : Slot :=
  match descriptor_value descriptor with
  | JsFunction originalMethod =>
      if negb (String.eqb key "constructor") then Wrapped originalMethod
      else Kept descriptor
  | _ => Kept descriptor
  end.

(** [for (const key of Object.getOwnPropertyNames(original)) { ... }] *)
Definition withTransactionClient (prototype : list (string * Descriptor))
  : list (string * Slot) :=
  map (fun kd : string * Descriptor => (fst kd, decorate (fst kd) (snd kd)))
      prototype.

Definition TypeError_not_a_function : JsError :=
  mkError "TypeError" "is not a function" "".

(** [receiver.key(...args)] on an instance of the undecorated class. *)
Definition call_original (prototype : list (string * Descriptor)) (key : string)
  (this : JsValue) (args : list JsValue) (st : St) : Outcome JsValue * St :=
  match lookup key prototype with
  | Some (DataDescriptor (JsFunction f)) => apply f this args st
  | _ => (Rejected TypeError_not_a_function, st)
  end.

(** [receiver.key(...args)] on an instance of the decorated class. *)
Definition call_decorated (prototype : list (string * Slot)) (key : string)
  (this : JsValue) (args : list JsValue) (st : St) : Outcome JsValue * St :=
  match lookup key prototype with
  | Some (Wrapped f) => wrapper f this args st
  | Some (Kept (DataDescriptor (JsFunction f))) => apply f this args st
  | _ => (Rejected TypeError_not_a_function, st)
  end.

End Environment.

End Decorator.

(** ** A class to decorate

    The repository applies the decorator nowhere; this is a repository class
    of the kind it is written for: a [prisma] field, a method that queries
    through it and a method that does not touch [this].  Its heap is the
    list of queries issued. *)
Module UsersRepository.
Import Decorator.

Definition prototype : list (string * Descriptor) :=
  [ ("constructor", DataDescriptor (JsFunction 0));
    ("findUserById", DataDescriptor (JsFunction 1));
    ("tableName", DataDescriptor (JsFunction 2));
    ("client", AccessorDescriptor (JsFunction 3) JsUndefined) ].

Definition toString (ref : nat) : string :=
  match ref with
  | 1 => "findUserById(id) { return this.prisma.user.findUnique({ where: { id } }); }"
  | 2 => "tableName() { return 'user'; }"
  | 3 => "get client() { return this.prisma; }"
  | _ => "class UsersRepository { constructor(prisma) { this.prisma = prisma; } }"
  end.

Definition apply (ref : nat) (this : JsValue) (args : list JsValue)
    (queries : list string) : Outcome JsValue * list string :=
  match ref with
  | 1 =>
      match get_member this "prisma" with
      | Rejected e => (Rejected e, queries)
      | Resolved _ =>
          (Resolved (JsObject [("id", nth 0 args JsUndefined)]),
           (queries ++ ["user.findUnique"])%list)
      end
  | 2 => (Resolved (JsString "user"), queries)
  | _ => (Resolved JsUndefined, queries)
  end.

(** An instance: [this.prisma] is a client. *)
Definition instance : JsValue :=
  JsObject [("prisma", JsObject [("$transaction", JsFunction 9)])].

End UsersRepository.

(** ** What the properties observe *)

(** Native transactions opened so far. *)
Fixpoint opened_in (t : list Event) : nat :=
  match t with
  | [] => 0
  | EvBegin _ :: t' => S (opened_in t')
  | _ :: t' => opened_in t'
  end.

Definition opened (w : World) : nat := opened_in (trace w).

(** Clients allocated by [new PrismaClient()] so far. *)
Fixpoint allocated_in (t : list Event) : nat :=
  match t with
  | [] => 0
  | EvNew _ :: t' => S (allocated_in t')
  | _ :: t' => allocated_in t'
  end.

Definition allocated (w : World) : nat := allocated_in (trace w).

(** The world in which [$transaction] calls its callback: one more object,
    one more transaction begun. *)
Definition begun (w : World) : World :=
  add_event (EvBegin (next_ref w)) (bump w).

(** How [$transaction] settles transaction [n] on its callback's outcome. *)
Definition settle {A : Type} (n : nat) (r : Outcome A * World) : Outcome A * World :=
  match r with
  | (Resolved a, w) => (Resolved a, add_event (EvCommit n) w)
  | (Rejected e, w) => (Rejected e, add_event (EvRollback n) w)
  end.

(** [this.user && typeof this.user.findUnique === 'function'] on the world. *)
Definition has_methods (w : World) : bool :=
  user_is_object (user w) && findUnique_is_function (user w).

(** A process that has just constructed its service: nothing connected,
    [this.user] not there yet. *)
Definition world0 : World :=
  mkWorld Uninitialized UserMissing None 0 [] [] [].

(** A chain of [depth + 1] calls of [transaction], each made in the callback
    of the one before, with [callback] run by the innermost. *)
Fixpoint nested {T : Type} (depth : nat) (callback : Handle -> Async T) : Async T :=
  match depth with
  | 0 => Extends.transaction callback
  | S d => Extends.transaction (fun _ => nested d callback)
  end.

(** The world after [depth + 1] transactions have been opened in a row. *)
Fixpoint entered (depth : nat) (w : World) : World :=
  match depth with
  | 0 => begun w
  | S d => entered d (begun w)
  end.

(** The world after the transactions [n], ..., [n + depth] have been rolled
    back, innermost first. *)
Fixpoint unwound (depth : nat) (n : nat) (w : World) : World :=
  match depth with
  | 0 => add_event (EvRollback n) w
  | S d => add_event (EvRollback n) (unwound d (S n) w)
  end.

(** The join rule of the design document, for a manager whose callback is
    handed the transaction client: with a context visible, [run] is the
    callback itself. *)
Definition joins_visible_context
    (run : forall T : Type, (Handle -> Async T) -> Async T) : Prop :=
  forall (T : Type) (callback : Handle -> Async T) (tx : Handle) (w : World),
    run T callback (Some tx) w = callback tx (Some tx) w.

(** The error the example service of the readme throws to force a rollback. *)
Definition simulated_error : JsError :=
  mkError "InternalServerErrorException" "Simulated error during profile creation." "".

(** Case analysis on what the getters read of the world. *)
Ltac by_cases_on_world w :=
  destruct w as [? [|[|]] [?|] ? ? ? ?]; try reflexivity.

(** ** Step 5 of the readme: [UsersRepository] and [UsersService]

    The calls on [client.user] belong to the Prisma client; they are taken
    as the fields of a [Delegate], each given the client it is called on.
    The repository is written against [this.prisma.client], whichever
    version of the service provides it: the getter is an argument. *)
Module Users.

Record User : Type := mkUser {
  id : nat;
  name : string;
  email : string
}.

(** [Prisma.UserCreateInput], as the service fills it: [{ name, email }]. *)
Record UserCreateInput : Type := mkCreateInput {
  create_name : string;
  create_email : string
}.

(** [Prisma.UserUpdateInput]: each field is there or not. *)
Record UserUpdateInput : Type := mkUpdateInput {
  update_name : option string;
  update_email : option string
}.

(** [Prisma.UserWhereUniqueInput] *)
Inductive UserWhereUniqueInput : Type :=
| ById (n : nat)
| ByEmail (e : string).

Record Delegate : Type := mkDelegate {
  create : Handle -> UserCreateInput -> Async User;
  findUnique : Handle -> UserWhereUniqueInput -> Async (option User);
  update : Handle -> UserWhereUniqueInput -> UserUpdateInput -> Async User;
  delete : Handle -> UserWhereUniqueInput -> Async User
}.

(** *** [src/users/users.repository.ts] *)
Module Repository.

Definition createUser (client : Async Handle) (db : Delegate)
    (data : UserCreateInput) : Async User :=
  c <- client ;; create db c data.

Definition findUserById (client : Async Handle) (db : Delegate) (n : nat)
  : Async (option User) :=
  c <- client ;; findUnique db c (ById n).

Definition updateUser (client : Async Handle) (db : Delegate)
    (where_ : UserWhereUniqueInput) (data : UserUpdateInput) : Async User :=
  c <- client ;; update db c where_ data.

Definition deleteUser (client : Async Handle) (db : Delegate)
    (where_ : UserWhereUniqueInput) : Async User :=
  c <- client ;; delete db c where_.

End Repository.

(** [`${n}`] for a number that is a natural. *)
Definition number_text (n : nat) : string := Decorator.decimal n n.

(** What both versions of [createUserAndProfile] do after their first line
    of log; [profileData] is not read. *)
Definition createUserAndProfile_steps (client : Async Handle) (db : Delegate)
    (userData : UserCreateInput) : Async User :=
  user_ <- Repository.createUser client db userData ;;
  say LvLog ("Service: User created with ID: " ++ number_text (id user_)) ;;;
  (if String.eqb (create_email userData) "error@example.com" then
     say LvError "Service: Simulating an error to trigger rollback." ;;;
     throw simulated_error
   else ret tt) ;;;
  Repository.updateUser client db (ById (id user_))
    (mkUpdateInput (Some (name user_ ++ " (Updated)")) None) ;;;
  say LvLog ("Service: User " ++ number_text (id user_)
             ++ " updated within the same transaction.") ;;;
  ret user_.

(** *** [src/users/users.service.ts], the version marked [@Transactional()] *)
Module Service.

Definition createUserAndProfile (client : Async Handle) (db : Delegate)
    (userData : UserCreateInput) (profileData : string) : Async User :=
  say LvLog "Service: Starting createUserAndProfile" ;;;
  createUserAndProfile_steps client db userData.

Definition findUserById (client : Async Handle) (db : Delegate) (n : nat)
  : Async (option User) :=
  say LvLog "Service: Finding user by ID (non-transactional)" ;;;
  Repository.findUserById client db n.

End Service.

(** *** [src/user/user.service.ts], the version that calls
    [this.prismaService.transaction] itself, on the service with the
    temporary workaround *)
Module ExplicitService.

Definition createUserAndProfile (db : Delegate)
    (userData : UserCreateInput) (profileData : string) : Async User :=
  say LvLog "Service: Starting createUserAndProfile (explicit transactional)" ;;;
  Workaround.transaction (fun txClient =>
    createUserAndProfile_steps Workaround.client db userData).

Definition findUserById (db : Delegate) (n : nat) : Async (option User) :=
  say LvLog "Service: Finding user by ID (non-transactional)" ;;;
  Repository.findUserById Workaround.client db n.

End ExplicitService.

(** A delegate to run the examples on: every call prints the client it is
    made on; [create] gives the new user the id 1, [findUnique] finds
    nobody, [update] and [delete] answer with a user of the id asked for. *)
Definition client_text (h : Handle) : string :=
  match h with
  | ServiceClient => "service"
  | TxClient n => "tx" ++ number_text n
  | NewClient n => "new" ++ number_text n
  end.

Definition where_id (w : UserWhereUniqueInput) : nat :=
  match w with
  | ById n => n
  | ByEmail _ => 0
  end.

Definition printing_delegate : Delegate :=
  mkDelegate
    (fun h d => say LvLog ("user.create on " ++ client_text h) ;;;
                ret (mkUser 1 (create_name d) (create_email d)))
    (fun h _ => say LvLog ("user.findUnique on " ++ client_text h) ;;; ret None)
    (fun h w d => say LvLog ("user.update on " ++ client_text h) ;;;
                  ret (mkUser (where_id w)
                         (match update_name d with Some n => n | None => "" end)
                         (match update_email d with Some e => e | None => "" end)))
    (fun h w => say LvLog ("user.delete on " ++ client_text h) ;;;
                ret (mkUser (where_id w) "" "")).

(** The same delegate, but for [update], which fails as Prisma does when the
    record is not there. *)
Definition record_not_found : JsError :=
  mkError "PrismaClientKnownRequestError" "Record to update not found." "".

Definition update_failing_delegate : Delegate :=
  mkDelegate (create printing_delegate) (findUnique printing_delegate)
    (fun h _ _ => say LvLog ("user.update on " ++ client_text h) ;;;
                  throw record_not_found)
    (delete printing_delegate).

End Users.

(** [n] reads of a getter in a row, oldest first. *)
Fixpoint reads (n : nat) (getter : Async Handle) : Async (list Handle) :=
  match n with
  | 0 => ret []
  | S k => h <- getter ;; hs <- reads k getter ;; ret (h :: hs)
  end.

(** The world after [depth + 1] transactions [n], ..., [n + depth] have been
    committed, innermost first. *)
Fixpoint committed (depth : nat) (n : nat) (w : World) : World :=
  match depth with
  | 0 => add_event (EvCommit n) w
  | S d => add_event (EvCommit n) (committed d (S n) w)
  end.

(** Lines printed with [console.error]. *)
Fixpoint printed_errors (c : list (Level * string)) : nat :=
  match c with
  | [] => 0
  | (LvError, _) :: c' => S (printed_errors c')
  | _ :: c' => printed_errors c'
  end.

(** [c] occurs in [s]. *)
Fixpoint has_char (c : ascii) (s : string) : bool :=
  match s with
  | EmptyString => false
  | String c' s' => Ascii.eqb c c' || has_char c s'
  end.

(** Neither ["("] nor a line terminator occurs in [s]: what [.*?] can run
    over before it meets the parenthesis. *)
Fixpoint plain (s : string) : bool :=
  match s with
  | EmptyString => true
  | String c s' =>
      negb (Ascii.eqb c "("%char) && negb (Decorator.is_line_terminator c) && plain s'
  end.

(** [s] without its last character. *)
Fixpoint but_last (s : string) : string :=
  match s with
  | EmptyString => EmptyString
  | String _ EmptyString => EmptyString
  | String c s' => String c (but_last s')
  end.

(** ** What the properties of the later versions observe *)

(** The world once [Math.random] has been drawn from. *)
Definition drawn (w : World) : World :=
  mkWorld (lifecycle w) (user w) (_fallbackPrismaClient w)
          (next_ref w) (trace w) (console w) (tl (randoms w)).

(** The identifier the next root transaction will give itself. *)
Definition next_transactionId (w : World) : string :=
  substring_2_9 (hd "0" (randoms w)).

(** [depth] calls of the joining [transaction], each made in the callback of
    the one before, around [callback]. *)
Fixpoint joined {T : Type} (depth : nat) (callback : Scoped TransactionStore T)
  : Scoped TransactionStore T :=
  match depth with
  | 0 => callback
  | S d => Joining.transaction (joined d callback)
  end.

(** The world after [depth] calls in a row have reported that they reuse
    the transaction of [st]. *)
Fixpoint reused (depth : nat) (st : TransactionStore) (w : World) : World :=
  match depth with
  | 0 => w
  | S d =>
      reused d st
        (add_line LvLog
           ("[TX:" ++ transactionId st
            ++ "] PrismaService.transaction: Reusing existing transaction.") w)
  end.

(** What a callback can observe of its transaction: the stored record and
    the client the getter hands out. *)
Definition observe : Scoped TransactionStore (option TransactionStore * Handle) :=
  store <- prismaClientContext.getStore ;;
  c <- Joining.client ;;
  ret (store, c).

(** How the catch of the later [transaction] goes on with what it caught. *)
Definition caught (id : string) (n : nat) (e : Thrown) (w : World)
  : Thrown * World :=
  match message_text e with
  | inl type_error => (ThrownError type_error, add_event (EvRollback n) w)
  | inr text =>
      (e, add_event (EvRollback n)
            (add_line LvError
               ("[TX:" ++ id ++ "] PrismaService.transaction: Callback failed. Transaction will rollback. Error: " ++ text) w))
  end.

(** The world in which the callback handed to [$transaction] by the later
    versions calls the caller's callback: the transaction has begun and the
    arrival of its client has been reported. *)
Definition received (id : string) (w : World) : World :=
  add_line LvLog
    ("[TX:" ++ id ++ "] PrismaService.transaction: Transaction client (tx) received from Prisma. Running callback in AsyncLocalStorage context.")
    (begun w).

(** How the later [transaction] settles transaction [n] on its callback's
    outcome. *)
Definition finish {T : Type} (id : string) (n : nat) (r : Outcome T * World)
  : Outcome T * World :=
  match r with
  | (Resolved a, w) =>
      (Resolved a,
       add_event (EvCommit n)
         (add_line LvLog
            ("[TX:" ++ id ++ "] PrismaService.transaction: Callback executed. Transaction should commit.") w))
  | (Rejected e, w) => (Rejected (fst (caught id n e w)), snd (caught id n e w))
  end.

(** The world in which a root call of the later versions reaches
    [$transaction]: the identifier drawn, and the line [line] printed. *)
Definition announced (line : string) (w : World) : World :=
  add_line LvLog
    ("[TX:" ++ next_transactionId w ++ "] PrismaService.transaction: " ++ line)
    (drawn w).

(** A process that has just constructed its service, with the texts its
    draws of [Math.random] will give. *)
Definition world_drawing (texts : list string) : World :=
  mkWorld Uninitialized UserMissing None 0 [] [] texts.

(** How the interceptor settles a handler that failed with [e] in the
    world [w], inside the transaction [n]: when [e.message] can be read, two
    lines of log around the rollback and [e] itself; when the read throws,
    the [TypeError] of the read, reported once. *)
Definition intercept_failure {T : Type} (n : nat) (e : Thrown) (w : World)
  : Outcome T * World :=
  match message_text e with
  | inl type_error =>
      (Rejected type_error,
       add_line LvError ("Failed to execute transaction: " ++ message type_error)
         (add_event (EvRollback n) w))
  | inr text =>
      (Rejected e,
       add_line LvError ("Failed to execute transaction: " ++ text)
         (add_event (EvRollback n)
            (add_line LvError ("Transaction rolled back due to error: " ++ text) w)))
  end.

(** ** Equations of the world and of the native transaction *)

Lemma opened_in_app (t u : list Event) :
  opened_in (t ++ u) = opened_in t + opened_in u.
Proof.
  induction t as [|ev t IH]; simpl; [reflexivity|].
  destruct ev; simpl; rewrite IH; reflexivity.
Qed.

Lemma allocated_in_app (t u : list Event) :
  allocated_in (t ++ u) = allocated_in t + allocated_in u.
Proof.
  induction t as [|ev t IH]; simpl; [reflexivity|].
  destruct ev; simpl; rewrite IH; reflexivity.
Qed.

Lemma opened_begun (w : World) : opened (begun w) = S (opened w).
Proof.
  unfold opened, begun. simpl. rewrite opened_in_app. simpl. lia.
Qed.

Lemma next_ref_begun (w : World) : next_ref (begun w) = S (next_ref w).
Proof. reflexivity. Qed.

Lemma opened_settle {A : Type} (n : nat) (r : Outcome A * World) :
  opened (snd (settle n r)) = opened (snd r).
Proof.
  destruct r as [[a|e] w]; unfold opened; simpl;
    rewrite opened_in_app; simpl; lia.
Qed.

Lemma fst_settle {A : Type} (n : nat) (r : Outcome A * World) :
  fst (settle n r) = fst r.
Proof. destruct r as [[a|e] w]; reflexivity. Qed.

(** [$transaction] with the callback run under [prismaClientContext.run]:
    whatever the caller's scope shows, the callback runs in the world where
    a new transaction has begun, with the new client as scoped value. *)
Lemma transaction_unfold {T : Type} (callback : Handle -> Async T)
    (s : option Handle) (w : World) :
  Extends.transaction callback s w =
  settle (next_ref w)
    (callback (TxClient (next_ref w)) (Some (TxClient (next_ref w))) (begun w)).
Proof.
  unfold Extends.transaction, PrismaClient.dollar_transaction,
    prismaClientContext.run, bind, try_catch, fresh, emit, modify, ret, throw,
    settle, begun.
  destruct (callback _ _ _) as [[a|e] w2]; reflexivity.
Qed.

Lemma nested_succ {T : Type} (d : nat) (callback : Handle -> Async T)
    (s : option Handle) (w : World) :
  nested (S d) callback s w =
  settle (next_ref w) (nested d callback (Some (TxClient (next_ref w))) (begun w)).
Proof. simpl. apply transaction_unfold. Qed.

Lemma client_unfold (s : option Handle) (w : World) :
  Extends.client s w = (Resolved (js_or s ServiceClient), w).
Proof. reflexivity. Qed.

(** The interceptor, for every handler. *)
Lemma intercept_equation :
  forall (T : Type) (isTransactional : bool) (next_handle : rxjs.Observable T)
         (s : option Handle) (w : World),
    PrismaTransactionInterceptor.intercept isTransactional next_handle s w
    = if isTransactional then
        match next_handle (Some (TxClient (next_ref w)))
                (begun (add_line LvDebug "Starting database transaction..." w)) with
        | (Resolved (Some r), w') =>
            (Resolved (Some r),
             add_event (EvCommit (next_ref w))
               (add_line LvDebug "Transaction committed successfully." w'))
        | (Resolved None, w') => intercept_failure (next_ref w) rxjs.EmptyError w'
        | (Rejected e, w') => intercept_failure (next_ref w) e w'
        end
      else next_handle s w.
Proof.
  intros T [|] next_handle s w; [|reflexivity].
  unfold PrismaTransactionInterceptor.intercept. cbn [negb].
  unfold bind at 1. unfold say at 1, modify at 1.
  unfold rxjs.catchError, rxjs.from, try_catch at 1. unfold bind at 1.
  rewrite transaction_unfold.
  cbn [next_ref add_line].
  unfold try_catch, rxjs.lastValueFrom, bind.
  destruct (next_handle _ _) as [[[r|]|e] w']; try reflexivity.
  unfold intercept_failure, read_message.
  destruct e as [| | t | e]; reflexivity.
Qed.

(** ** The transaction manager *)

(** The versions that keep no identifier: every call of [transaction],
    also one made while a transaction client is visible in the scope, opens
    a new native transaction and runs its callback with the new client as
    scoped value; [depth + 1] nested calls open [depth + 1] native
    transactions, and the innermost callback is served the innermost
    client. *)
Lemma transaction_opens_native_at_every_call :
  (forall (T : Type) (callback : Handle -> Async T) (s : option Handle) (w : World),
      Extends.transaction callback s w =
      settle (next_ref w)
        (callback (TxClient (next_ref w)) (Some (TxClient (next_ref w))) (begun w)))
  /\ (forall w : World, opened (begun w) = S (opened w))
  /\ (forall (T : Type) (callback : Handle -> Async T) (s : option Handle) (w : World),
         Workaround.transaction callback s w = Extends.transaction callback s w)
  /\ (forall (s : option Handle) (w : World),
         fst (Composed.transaction Composed.client s w)
         = Resolved (TxClient (next_ref w))
         /\ opened (snd (Composed.transaction Composed.client s w))
            = S (opened w))
  /\ (forall (depth : nat) (s : option Handle) (w : World),
         fst (nested depth (fun _ => Extends.client) s w)
         = Resolved (TxClient (next_ref w + depth))
         /\ opened (snd (nested depth (fun _ => Extends.client) s w))
            = opened w + S depth).
Proof.
  split; [intros; apply transaction_unfold|].
  split; [apply opened_begun|].
  split; [reflexivity|].
  split.
  { intros s w. split; [reflexivity|].
    unfold opened. cbn. rewrite !opened_in_app. cbn. lia. }
  induction depth as [|d IH]; intros s w.
  - simpl nested. rewrite transaction_unfold, client_unfold. simpl.
    split.
    + rewrite Nat.add_0_r. reflexivity.
    + unfold opened. simpl. rewrite !opened_in_app. simpl. lia.
  - rewrite nested_succ, fst_settle, opened_settle.
    destruct (IH (Some (TxClient (next_ref w))) (begun w)) as [Hr Ho].
    rewrite Hr, Ho, next_ref_begun, opened_begun.
    split; [f_equal; f_equal; lia | lia].
Qed.

(** C1, counterexample: with the [transaction] of step 1, which the versions
    up to the one with the identifier follow, a root call whose callback
    calls [transaction] once more opens two native transactions, and the
    nested callback is served the client of the second, not the root's.
    With the first version that keeps an identifier the same graph opens
    two native transactions as well, and the nested callback observes
    another identifier than the root's. *)
Lemma nested_transaction_opens_second :
  let graph :=
    Extends.transaction (fun root =>
      seen <- Extends.transaction (fun _ => Extends.client) ;;
      ret (root, seen)) in
  let identified :=
    Identified.transaction
      (root <- prismaClientContext.getStore ;;
       seen <- Identified.transaction prismaClientContext.getStore ;;
       ret (option_map transactionId root, option_map transactionId seen)) in
  fst (graph None world0) = Resolved (TxClient 0, TxClient 1)
  /\ opened (snd (graph None world0)) = 2
  /\ ~ joins_visible_context (@Extends.transaction)
  /\ fst (identified None (world_drawing ["0.abc12de4f"; "0.k3v9x01z2"]))
     = Resolved (Some "abc12de", Some "k3v9x01")
  /\ opened (snd (identified None (world_drawing ["0.abc12de4f"; "0.k3v9x01z2"])))
     = 2.
Proof.
  split; [reflexivity|]. split; [reflexivity|].
  split; [|split; reflexivity].
  intros H.
  specialize (H Handle (fun _ => Extends.client) (TxClient 0) (begun world0)).
  discriminate H.
Qed.

Lemma entered_succ (d : nat) (w : World) :
  entered (S d) w = entered d (begun w).
Proof. reflexivity. Qed.

Lemma trace_unwound (depth n : nat) (w : World) :
  trace (unwound depth n w) = (trace w ++ map EvRollback (rev (seq n (S depth))))%list.
Proof.
  revert n. induction depth as [|d IH]; intros n.
  - reflexivity.
  - change (unwound (S d) n w) with (add_event (EvRollback n) (unwound d (S n) w)).
    cbn [add_event trace]. rewrite IH.
    change (seq n (S (S d))) with (n :: seq (S n) (S d)).
    cbn [rev]. rewrite map_app, app_assoc. reflexivity.
Qed.

Lemma nested_rejects {T : Type} (depth : nat) (callback : Handle -> Async T)
    (e : Thrown) (s : option Handle) (w w' : World) :
  callback (TxClient (next_ref w + depth)) (Some (TxClient (next_ref w + depth)))
           (entered depth w) = (Rejected e, w') ->
  nested depth callback s w = (Rejected e, unwound depth (next_ref w) w').
Proof.
  revert s w. induction depth as [|d IH]; intros s w H.
  - simpl nested. rewrite transaction_unfold.
    rewrite Nat.add_0_r in H. simpl entered in H. rewrite H. reflexivity.
  - rewrite nested_succ.
    rewrite (IH (Some (TxClient (next_ref w))) (begun w)).
    + reflexivity.
    + rewrite next_ref_begun, <- entered_succ.
      replace (S (next_ref w) + d) with (next_ref w + S d) by lia.
      exact H.
Qed.

(** ** The versions that keep an identifier *)

Lemma in_native_transaction_unfold {T : Type} (id : string)
    (callback : Scoped TransactionStore T) (s : option TransactionStore) (w : World) :
  Identified.in_native_transaction id callback s w
  = finish id (next_ref w)
      (callback (Some (mkStore (TxClient (next_ref w)) id)) (received id w)).
Proof.
  unfold Identified.in_native_transaction, PrismaClient.dollar_transaction,
    prismaClientContext.run, bind, try_catch, fresh, emit, say, modify, ret,
    finish, received, begun, caught, read_message.
  cbn [next_ref bump add_event add_line].
  destruct (callback _ _) as [[a|e] w2]; [reflexivity|].
  destruct (message_text e) as [type_error|text]; reflexivity.
Qed.

Lemma identified_transaction_unfold {T : Type}
    (callback : Scoped TransactionStore T) (s : option TransactionStore) (w : World) :
  Identified.transaction callback s w
  = finish (next_transactionId w) (next_ref w)
      (callback (Some (mkStore (TxClient (next_ref w)) (next_transactionId w)))
         (received (next_transactionId w)
            (announced "Entering interactive transaction." w))).
Proof.
  unfold Identified.transaction, new_transactionId, Math_random_toString36.
  unfold bind at 1 2 3. unfold ret at 1. unfold say at 1, modify at 1.
  exact (in_native_transaction_unfold (next_transactionId w) callback s
           (announced "Entering interactive transaction." w)).
Qed.

Lemma joining_root_unfold {T : Type}
    (callback : Scoped TransactionStore T) (w : World) :
  Joining.transaction callback None w
  = finish (next_transactionId w) (next_ref w)
      (callback (Some (mkStore (TxClient (next_ref w)) (next_transactionId w)))
         (received (next_transactionId w)
            (announced "Starting new interactive transaction." w))).
Proof.
  unfold Joining.transaction, prismaClientContext.getStore, new_transactionId,
    Math_random_toString36.
  unfold bind at 1 2 3 4. unfold ret at 1. unfold say at 1, modify at 1.
  exact (in_native_transaction_unfold (next_transactionId w) callback None
           (announced "Starting new interactive transaction." w)).
Qed.

Lemma joining_join {T : Type} (callback : Scoped TransactionStore T)
    (st : TransactionStore) (w : World) :
  Joining.transaction callback (Some st) w
  = callback (Some st)
      (add_line LvLog
         ("[TX:" ++ transactionId st
          ++ "] PrismaService.transaction: Reusing existing transaction.") w).
Proof. reflexivity. Qed.

Lemma joined_unfold {T : Type} (depth : nat) (callback : Scoped TransactionStore T)
    (st : TransactionStore) (w : World) :
  joined depth callback (Some st) w = callback (Some st) (reused depth st w).
Proof.
  revert w. induction depth as [|d IH]; intros w; [reflexivity|].
  cbn [joined reused]. rewrite joining_join. apply IH.
Qed.

Lemma trace_reused (depth : nat) (st : TransactionStore) (w : World) :
  trace (reused depth st w) = trace w.
Proof.
  revert w. induction depth as [|d IH]; intros w; [reflexivity|].
  cbn [reused]. rewrite IH. reflexivity.
Qed.

Lemma observe_unfold (st : TransactionStore) (w : World) :
  observe (Some st) w
  = (Resolved (Some st, txClient st),
     add_line LvLog
       ("[TX:" ++ transactionId st
        ++ "] PrismaService.client: Using transaction client") w).
Proof. reflexivity. Qed.

Lemma substring_length_le (n m : nat) (s : string) :
  String.length (String.substring n m s) <= m.
Proof.
  revert n m. induction s as [|c s IH]; intros n m.
  - destruct n, m; simpl; lia.
  - destruct n as [|n]; [destruct m as [|m]|]; simpl.
    + lia.
    + specialize (IH 0 m). lia.
    + apply IH.
Qed.

(** C1: what a call of [transaction] does while a context is visible, by
    version.  In the last version of the service the call reports that it
    reuses the transaction and runs its callback as it is, in the same
    scope, with no call on the driver; a root call around any number of
    nested calls opens one native transaction, and the innermost callback
    observes the record of the root, its identifier and its client.  In the
    versions before, the call does not look at the scope: it opens a native
    transaction of its own and shows its callback the new client, so that
    [depth + 1] nested calls open [depth + 1] transactions, and with the
    first version that keeps an identifier the nested callback observes an
    identifier drawn anew. *)
Theorem nested_call_joins_in_the_last_version_only :
  (forall (T : Type) (callback : Scoped TransactionStore T)
          (st : TransactionStore) (w : World),
      Joining.transaction callback (Some st) w
      = callback (Some st)
          (add_line LvLog
             ("[TX:" ++ transactionId st
              ++ "] PrismaService.transaction: Reusing existing transaction.") w))
  /\ (forall (depth : nat) (w : World),
         fst (Joining.transaction (joined depth observe) None w)
         = Resolved (Some (mkStore (TxClient (next_ref w)) (next_transactionId w)),
                     TxClient (next_ref w))
         /\ trace (snd (Joining.transaction (joined depth observe) None w))
            = (trace w ++ [EvBegin (next_ref w); EvCommit (next_ref w)])%list)
  /\ (forall (T : Type) (callback : Handle -> Async T) (s : option Handle) (w : World),
         Extends.transaction callback s w =
         settle (next_ref w)
           (callback (TxClient (next_ref w)) (Some (TxClient (next_ref w))) (begun w))
         /\ Workaround.transaction callback s w = Extends.transaction callback s w)
  /\ (forall (depth : nat) (s : option Handle) (w : World),
         fst (nested depth (fun _ => Extends.client) s w)
         = Resolved (TxClient (next_ref w + depth))
         /\ opened (snd (nested depth (fun _ => Extends.client) s w))
            = opened w + S depth)
  /\ (forall (s : option Handle) (w : World),
         fst (Composed.transaction (Composed.transaction Composed.client) s w)
         = Resolved (TxClient (S (next_ref w)))
         /\ opened (snd (Composed.transaction (Composed.transaction Composed.client) s w))
            = opened w + 2)
  /\ (forall (s : option TransactionStore) (w : World),
         fst (Identified.transaction (Identified.transaction observe) s w)
         = Resolved (Some (mkStore (TxClient (S (next_ref w)))
                             (next_transactionId (drawn w))),
                     TxClient (S (next_ref w)))
         /\ trace (snd (Identified.transaction (Identified.transaction observe) s w))
            = (trace w ++ [EvBegin (next_ref w); EvBegin (S (next_ref w));
                           EvCommit (S (next_ref w)); EvCommit (next_ref w)])%list).
Proof.
  destruct transaction_opens_native_at_every_call as (He & _ & Hw & _ & Hn).
  split; [intros; apply joining_join|].
  split.
  { intros depth w. rewrite joining_root_unfold, joined_unfold, observe_unfold.
    cbn [finish fst snd txClient trace add_event add_line].
    split; [reflexivity|].
    rewrite trace_reused. cbn. rewrite <- app_assoc. reflexivity. }
  split; [intros T callback s w; split; [apply He | apply Hw]|].
  split; [exact Hn|].
  split.
  { intros s w. split; [reflexivity|].
    unfold opened. cbn. rewrite !opened_in_app. cbn. lia. }
  intros s w. rewrite identified_transaction_unfold.
  rewrite identified_transaction_unfold, observe_unfold.
  cbn. rewrite <- !app_assoc. split; reflexivity.
Qed.

(** C2, the failing input: a handler, or a callback, that throws
    [undefined].  The interceptor reads [error.message] in both of its
    [catch] blocks, and so does the [catch] of the later [transaction]: the
    read throws, and what comes out is the [TypeError] of the read, not the
    value thrown.  The native transaction is rolled back all the same. *)
Theorem thrown_undefined_comes_out_as_a_TypeError :
  forall (T : Type) (w : World),
    (forall s : option Handle,
        PrismaTransactionInterceptor.intercept true
          (CallHandler.handle (T := T) (throw ThrownUndefined)) s w
        = (Rejected (ThrownError (cannot_read "undefined" "message")),
           add_line LvError
             "Failed to execute transaction: Cannot read properties of undefined (reading 'message')"
             (add_event (EvRollback (next_ref w))
                (begun (add_line LvDebug "Starting database transaction..." w)))))
    /\ (forall s : option TransactionStore,
           fst (Identified.transaction (T := T) (throw ThrownUndefined) s w)
           = Rejected (ThrownError (cannot_read "undefined" "message"))
           /\ trace (snd (Identified.transaction (T := T) (throw ThrownUndefined) s w))
              = (trace w ++ [EvBegin (next_ref w); EvRollback (next_ref w)])%list)
    /\ fst (Joining.transaction (T := T) (throw ThrownUndefined) None w)
       = Rejected (ThrownError (cannot_read "undefined" "message"))
    /\ ThrownError (cannot_read "undefined" "message") <> ThrownUndefined.
Proof.
  intros T w. split; [|split; [|split]].
  - intros s. rewrite intercept_equation. reflexivity.
  - intros s. rewrite identified_transaction_unfold.
    cbn. rewrite <- app_assoc. split; reflexivity.
  - rewrite joining_root_unfold. reflexivity.
  - discriminate.
Qed.

(** C5, the failing input: two root calls for which [Math.random] gives two
    numbers whose texts in base 36 agree on the seven characters kept.
    Each call is shown a record of its own, with the client of its own
    native transaction, and the two records carry the same identifier.  In
    general the identifiers of two roots are the characters 2 to 8 of the
    two texts drawn, whatever these are. *)
Theorem roots_can_share_an_identifier :
  fst ((a <- Joining.transaction observe ;;
        b <- Joining.transaction observe ;;
        ret (a, b)) None (world_drawing ["0.abc12de4f"; "0.abc12de9z"]))
  = Resolved ((Some (mkStore (TxClient 0) "abc12de"), TxClient 0),
              (Some (mkStore (TxClient 1) "abc12de"), TxClient 1))
  /\ fst ((a <- Identified.transaction observe ;;
           b <- Identified.transaction observe ;;
           ret (a, b)) None (world_drawing ["0.abc12de4f"; "0.abc12de9z"]))
     = Resolved ((Some (mkStore (TxClient 0) "abc12de"), TxClient 0),
                 (Some (mkStore (TxClient 1) "abc12de"), TxClient 1))
  /\ (forall (w : World),
         fst ((a <- Joining.transaction observe ;;
               b <- Joining.transaction observe ;;
               ret (a, b)) None w)
         = Resolved ((Some (mkStore (TxClient (next_ref w)) (next_transactionId w)),
                      TxClient (next_ref w)),
                     (Some (mkStore (TxClient (S (next_ref w)))
                              (next_transactionId (drawn w))),
                      TxClient (S (next_ref w))))).
Proof.
  split; [reflexivity|]. split; [reflexivity|].
  intros w. unfold bind at 1 2.
  rewrite joining_root_unfold, observe_unfold. cbn [finish].
  rewrite joining_root_unfold, observe_unfold. reflexivity.
Qed.

(** ** The stored context *)

(** C8: in the versions that keep a context, the value stored in the scope
    is a record of the client [$transaction] handed over and of the
    identifier drawn at the entry of the root call, which has at most seven
    characters.  The root call builds it and shows it to its callback; a
    nested call of the last version runs its callback under the very record
    it found, so that the callback of any number of nested calls reads the
    record the root's callback reads. *)
Theorem stored_context_is_client_and_identifier :
  (forall w : World,
      fst (Joining.transaction prismaClientContext.getStore None w)
      = Resolved (Some (mkStore (TxClient (next_ref w)) (next_transactionId w)))
      /\ String.length (next_transactionId w) <= 7)
  /\ (forall (s : option TransactionStore) (w : World),
         fst (Identified.transaction prismaClientContext.getStore s w)
         = Resolved (Some (mkStore (TxClient (next_ref w)) (next_transactionId w))))
  /\ (forall (T : Type) (callback : Scoped TransactionStore T)
             (st : TransactionStore) (w : World),
         Joining.transaction callback (Some st) w
         = callback (Some st)
             (add_line LvLog
                ("[TX:" ++ transactionId st
                 ++ "] PrismaService.transaction: Reusing existing transaction.") w))
  /\ (forall (depth : nat) (w : World),
         fst (Joining.transaction
                (root <- prismaClientContext.getStore ;;
                 inside <- joined depth prismaClientContext.getStore ;;
                 ret (root, inside)) None w)
         = Resolved
             (Some (mkStore (TxClient (next_ref w)) (next_transactionId w)),
              Some (mkStore (TxClient (next_ref w)) (next_transactionId w)))).
Proof.
  split.
  { intros w. split.
    - rewrite joining_root_unfold. reflexivity.
    - apply substring_length_le. }
  split; [intros s w; rewrite identified_transaction_unfold; reflexivity|].
  split; [intros; apply joining_join|].
  intros depth w. rewrite joining_root_unfold.
  unfold bind at 1 2.
  unfold prismaClientContext.getStore at 1.
  rewrite joined_unfold. reflexivity.
Qed.

(** C8, counterexample: the record a root call stores holds a client and an
    identifier and nothing else; no depth is kept beside them: two records
    with the same client and the same identifier are the same record. *)
Lemma stored_context_has_no_depth :
  fst (Joining.transaction prismaClientContext.getStore None
         (world_drawing ["0.abc12de4f"]))
  = Resolved (Some (mkStore (TxClient 0) "abc12de"))
  /\ (forall a b : TransactionStore,
         txClient a = txClient b -> transactionId a = transactionId b -> a = b).
Proof.
  split; [reflexivity|].
  intros [ca ia] [cb ib]. cbn. intros -> ->. reflexivity.
Qed.

(** ** The client getter *)

(** C4: the getter of the service returns the transaction client that is
    visible in the current scope when there is one, and the client of the
    service itself otherwise; inside the callback of [transaction] that is
    the client of the transaction just opened. *)
Theorem client_returns_scoped_or_default :
  forall (s : option Handle) (w : World),
    Extends.client s w
    = (Resolved (match s with Some tx => tx | None => ServiceClient end), w)
    /\ fst (Diagnostic.client s w)
       = Resolved (match s with Some tx => tx | None => ServiceClient end)
    /\ fst (Composed.client s w)
       = Resolved (match s with Some tx => tx | None => ServiceClient end)
    /\ (forall tx : Handle,
           fst (Fallback.client (Some tx) w) = Resolved tx
           /\ fst (Workaround.client (Some tx) w) = Resolved tx)
    /\ fst (Extends.transaction (fun _ => Extends.client) s w)
       = Resolved (TxClient (next_ref w)).
Proof.
  intros s w. split; [destruct s; reflexivity|].
  split; [destruct s; by_cases_on_world w|].
  split; [destruct s; reflexivity|].
  split; [intros tx; split; reflexivity|].
  rewrite transaction_unfold, client_unfold. reflexivity.
Qed.

(** C3, as the code has it: called with no transaction client in scope, no
    getter ever fails, whatever the state of the connection (there is no
    readiness check).  The first, the inspecting and the final getter return
    the client of the service; the workaround returns it when [this] has
    its model methods and a newly built client otherwise; the fallback
    getter returns the module-level fallback client in that case, building
    it on first use. *)
Theorem getter_never_fails :
  forall w : World,
    fst (Extends.client None w) = Resolved ServiceClient
    /\ fst (Diagnostic.client None w) = Resolved ServiceClient
    /\ fst (Composed.client None w) = Resolved ServiceClient
    /\ fst (Workaround.client None w)
       = Resolved (if has_methods w then ServiceClient else NewClient (next_ref w))
    /\ fst (Fallback.client None w)
       = Resolved (if has_methods w then ServiceClient
                   else match _fallbackPrismaClient w with
                        | Some h => h
                        | None => NewClient (next_ref w)
                        end).
Proof.
  intros w. repeat split; by_cases_on_world w.
Qed.

(** C3, counterexample: before [onModuleInit], with no transaction in scope,
    the getters resolve; the workaround and the fallback getter hand out a
    second client, built on the spot. *)
Lemma getter_before_init_substitutes_client :
  lifecycle world0 = Uninitialized
  /\ fst (Workaround.client None world0) = Resolved (NewClient 0)
  /\ fst (Fallback.client None world0) = Resolved (NewClient 0)
  /\ fst (Extends.client None world0) = Resolved ServiceClient.
Proof. repeat split. Qed.

(** C6, as the code has it: [onModuleInit] makes the connection of the
    service ready and [onModuleDestroy] closes it; no getter changes that
    state.  The first, the inspecting and the final getter make no call on
    the driver; with no transaction in scope and [this] lacking its model
    methods, the workaround builds a client at each read, and the fallback
    getter builds one at the first such read and calls its [$connect]. *)
Theorem lifecycle_driven_by_module_hooks :
  forall (s : option Handle) (w : World),
    (lifecycle (snd (Extends.onModuleInit s w)) = Ready
     /\ lifecycle (snd (Extends.onModuleDestroy s w)) = Closed
     /\ lifecycle (snd (Composed.onModuleInit s w)) = Ready
     /\ lifecycle (snd (Composed.onModuleDestroy s w)) = Closed)
    /\ (lifecycle (snd (Extends.client s w)) = lifecycle w
        /\ lifecycle (snd (Diagnostic.client s w)) = lifecycle w
        /\ lifecycle (snd (Fallback.client s w)) = lifecycle w
        /\ lifecycle (snd (Workaround.client s w)) = lifecycle w
        /\ lifecycle (snd (Composed.client s w)) = lifecycle w)
    /\ (lifecycle (begun w) = lifecycle w
        /\ forall (n : nat) (r : Outcome Handle * World),
             lifecycle (snd (settle n r)) = lifecycle (snd r))
    /\ (trace (snd (Extends.client s w)) = trace w
        /\ trace (snd (Diagnostic.client s w)) = trace w
        /\ trace (snd (Composed.client s w)) = trace w)
    /\ trace (snd (Workaround.client s w))
       = (trace w ++ match s with
                     | Some _ => []
                     | None => if has_methods w then [] else [EvNew (next_ref w)]
                     end)%list
    /\ trace (snd (Fallback.client s w))
       = (trace w ++ match s with
                     | Some _ => []
                     | None =>
                         if has_methods w then []
                         else match _fallbackPrismaClient w with
                              | Some _ => []
                              | None => [EvNew (next_ref w);
                                         EvConnect (NewClient (next_ref w))]
                              end
                     end)%list.
Proof.
  intros s w.
  repeat split; try (intros n [[a|e] w']; reflexivity);
    destruct s; by_cases_on_world w;
    cbn; rewrite ?app_nil_r, <- ?app_assoc; reflexivity.
Qed.

(** C6, counterexample: one read of the getter before [onModuleInit], with
    no transaction in scope, builds a client and, in the fallback getter,
    starts its connection. *)
Lemma getter_read_allocates_and_connects :
  trace world0 = []
  /\ trace (snd (Fallback.client None world0)) = [EvNew 0; EvConnect (NewClient 0)]
  /\ trace (snd (Workaround.client None world0)) = [EvNew 0]
  /\ allocated (snd (Workaround.client None world0)) = 1.
Proof. repeat split. Qed.

(** C7, as the code has it: outside any transaction the first, the
    inspecting and the final getter return the client of the service at
    every call, in whatever world; so does the workaround while [this] has
    its model methods, and otherwise each of its calls returns a client
    built by that call; the fallback getter then returns one and the same
    fallback client. *)
Theorem getter_outside_transaction :
  (forall w1 w2 : World,
      fst (Extends.client None w1) = Resolved ServiceClient
      /\ fst (Extends.client None w2) = Resolved ServiceClient
      /\ fst (Diagnostic.client None w1) = fst (Diagnostic.client None w2)
      /\ fst (Composed.client None w1) = Resolved ServiceClient
      /\ fst (Composed.client None w2) = Resolved ServiceClient)
  /\ (forall w : World,
         fst ((a <- Workaround.client ;; b <- Workaround.client ;; ret (a, b)) None w)
         = Resolved (if has_methods w then (ServiceClient, ServiceClient)
                     else (NewClient (next_ref w), NewClient (S (next_ref w)))))
  /\ (forall w : World,
         fst ((a <- Fallback.client ;; b <- Fallback.client ;; ret (a, b)) None w)
         = Resolved (if has_methods w then (ServiceClient, ServiceClient)
                     else match _fallbackPrismaClient w with
                          | Some h => (h, h)
                          | None => (NewClient (next_ref w), NewClient (next_ref w))
                          end)).
Proof.
  split.
  - intros w1 w2. repeat split; by_cases_on_world w1; by_cases_on_world w2.
  - split; intros w; by_cases_on_world w.
Qed.

(** C7, counterexample: two reads of the workaround getter outside any
    transaction, on a service whose [this.user] is not there, return two
    different clients, neither the client of the service. *)
Lemma workaround_getter_returns_fresh_clients :
  fst ((a <- Workaround.client ;; b <- Workaround.client ;; ret (a, b)) None world0)
  = Resolved (NewClient 0, NewClient 1)
  /\ NewClient 0 <> NewClient 1
  /\ NewClient 0 <> ServiceClient.
Proof. repeat split; discriminate. Qed.

(** ** The decorator *)

Module DecoratorFacts.
Import Decorator.

(** Every body the wrapper hands to the [Function] constructor opens with
    the declaration that carries the type assertion, and does not parse. *)
Lemma generated_body_rejected (source : string) (args : list JsValue) :
  ecma_accepts (newMethodBody source args) = false.
Proof.
  unfold newMethodBody, txDeclaration.
  destruct (txArgIndex args >? -1)%Z; reflexivity.
Qed.

Lemma wrapper_outcome (St : Type) (toString : nat -> string)
    (apply : nat -> JsValue -> list JsValue -> St -> Outcome JsValue * St)
    (accepts : string -> bool) (f : nat) (this : JsValue) (args : list JsValue)
    (st : St) :
  wrapper St toString apply accepts f this args st =
  if negb (txArgIndex args >? -1)%Z && is_nullish this
  then (Rejected (TypeError_cannot_read this "prisma"), st)
  else if accepts (newMethodBody (toString f) args) then apply f this args st
       else (Rejected SyntaxError_unexpected_identifier, st).
Proof.
  unfold wrapper, new_Function.
  destruct (accepts (newMethodBody (toString f) args));
    destruct (txArgIndex args >? -1)%Z; cbn [negb andb];
    try reflexivity; destruct this; reflexivity.
Qed.

Lemma lookup_withTransactionClient (prototype : list (string * Descriptor))
    (key : string) :
  lookup key (withTransactionClient prototype)
  = option_map (decorate key) (lookup key prototype).
Proof.
  induction prototype as [|[k d] rest IH]; [reflexivity|].
  cbn [withTransactionClient map lookup fst snd].
  destruct (String.eqb key k) eqn:E; [|exact IH].
  apply String.eqb_eq in E. subst k. reflexivity.
Qed.

Lemma call_decorated_is_wrapper
    (St : Type) (toString : nat -> string)
    (apply : nat -> JsValue -> list JsValue -> St -> Outcome JsValue * St)
    (accepts : string -> bool)
    (prototype : list (string * Descriptor)) (key : string) (f : nat)
    (this : JsValue) (args : list JsValue) (st : St) :
  lookup key prototype = Some (DataDescriptor (JsFunction f)) ->
  key <> "constructor" ->
  call_decorated St toString apply accepts
    (withTransactionClient prototype) key this args st
  = wrapper St toString apply accepts f this args st.
Proof.
  intros Hmethod Hkey. unfold call_decorated.
  rewrite lookup_withTransactionClient, Hmethod.
  unfold decorate. cbn [option_map descriptor_value].
  apply String.eqb_neq in Hkey. rewrite Hkey. reflexivity.
Qed.

(** C9, the failing input: [findUserById] called on an instance with one
    argument.  The original method returns after one query.  The body the
    wrapper generates for this call opens with a TypeScript type assertion,
    the [Function] constructor rejects it, and the decorated method throws
    the [SyntaxError] before it reaches the call of the original: no query
    is issued. *)
Lemma decorated_method_throws_where_original_returns :
  call_original (list string) UsersRepository.apply UsersRepository.prototype
    "findUserById" UsersRepository.instance [JsNumber 7] []
  = (Resolved (JsObject [("id", JsNumber 7)]), ["user.findUnique"])
  /\ newMethodBody (UsersRepository.toString 1) [JsNumber 7]
     = "const tx = this.prisma as any;" ++ nl
       ++ " return this.prisma.user.findUnique({ where: { id } }); "
  /\ ecma_accepts (newMethodBody (UsersRepository.toString 1) [JsNumber 7]) = false
  /\ call_decorated (list string) UsersRepository.toString UsersRepository.apply
       ecma_accepts (withTransactionClient UsersRepository.prototype)
       "findUserById" UsersRepository.instance [JsNumber 7] []
     = (Rejected SyntaxError_unexpected_identifier, []).
Proof. repeat split. Qed.

End DecoratorFacts.

(** * Further properties of the services *)

Lemma trace_committed (depth n : nat) (w : World) :
  trace (committed depth n w) = (trace w ++ map EvCommit (rev (seq n (S depth))))%list.
Proof.
  revert n. induction depth as [|d IH]; intros n.
  - reflexivity.
  - change (committed (S d) n w) with (add_event (EvCommit n) (committed d (S n) w)).
    cbn [add_event trace]. rewrite IH.
    change (seq n (S (S d))) with (n :: seq (S n) (S d)).
    cbn [rev]. rewrite map_app, app_assoc. reflexivity.
Qed.

(** X1: when the innermost callback of [depth + 1] nested calls of
    [transaction] returns a value, every enclosing call returns that value,
    and the native transactions are committed innermost first; none is
    rolled back. *)
Theorem nested_commits_innermost_first
    (T : Type) (depth : nat) (callback : Handle -> Async T) (r : T)
    (s : option Handle) (w w' : World)
    (Hcallback : callback (TxClient (next_ref w + depth))
                   (Some (TxClient (next_ref w + depth))) (entered depth w)
                 = (Resolved r, w')) :
  nested depth callback s w = (Resolved r, committed depth (next_ref w) w')
  /\ trace (committed depth (next_ref w) w')
     = (trace w' ++ map EvCommit (rev (seq (next_ref w) (S depth))))%list.
Proof.
  split; [|apply trace_committed].
  revert s w Hcallback. induction depth as [|d IH]; intros s w H.
  - simpl nested. rewrite transaction_unfold.
    rewrite Nat.add_0_r in H. simpl entered in H. rewrite H. reflexivity.
  - rewrite nested_succ.
    rewrite (IH (Some (TxClient (next_ref w))) (begun w)).
    + reflexivity.
    + rewrite next_ref_begun, <- entered_succ.
      replace (S (next_ref w) + d) with (next_ref w + S d) by lia.
      exact H.
Qed.

Lemma nested_commits_innermost_first_witness :
  Extends.client (Some (TxClient 2)) (entered 2 world0)
  = (Resolved (TxClient 2), entered 2 world0)
  /\ nested 2 (fun _ => Extends.client) None world0
     = (Resolved (TxClient 2), committed 2 0 (entered 2 world0))
  /\ trace (committed 2 0 (entered 2 world0))
     = [EvBegin 0; EvBegin 1; EvBegin 2; EvCommit 2; EvCommit 1; EvCommit 0].
Proof.
  split; [reflexivity|].
  exact (nested_commits_innermost_first Handle 2 (fun _ => Extends.client)
           (TxClient 2) None world0 (entered 2 world0) eq_refl).
Defined.

(** X2: the interceptor, for every handler.  A handler that is not marked
    runs as it is, in the caller's scope, with nothing printed and no
    transaction.  A marked handler runs with the client of one new native
    transaction in scope: its last value is handed on after the commit; an
    observable that completes without a value is an [EmptyError] after the
    rollback; an error is handed on unchanged after the rollback when its
    [message] can be read, and comes out as the [TypeError] of that read
    when the handler threw [undefined] or [null]. *)
Theorem intercept_outcome :
  forall (T : Type) (isTransactional : bool) (next_handle : rxjs.Observable T)
         (s : option Handle) (w : World),
    PrismaTransactionInterceptor.intercept isTransactional next_handle s w
    = if isTransactional then
        match next_handle (Some (TxClient (next_ref w)))
                (begun (add_line LvDebug "Starting database transaction..." w)) with
        | (Resolved (Some r), w') =>
            (Resolved (Some r),
             add_event (EvCommit (next_ref w))
               (add_line LvDebug "Transaction committed successfully." w'))
        | (Resolved None, w') => intercept_failure (next_ref w) rxjs.EmptyError w'
        | (Rejected e, w') => intercept_failure (next_ref w) e w'
        end
      else next_handle s w.
Proof. exact intercept_equation. Qed.

(** X3: the [transaction] of the service that holds its client settles as
    its callback does: the callback runs with the client of one new native
    transaction in scope, a returned value is handed on after the commit,
    an error after the rollback, each with its line of log. *)
Theorem composed_transaction_outcome :
  forall (T : Type) (callback : Async T) (s : option Handle) (w : World),
    Composed.transaction callback s w
    = match callback (Some (TxClient (next_ref w)))
              (add_line LvLog
                 "PrismaService.transaction: Transaction client (tx) received from Prisma. Running callback in AsyncLocalStorage context."
                 (begun (add_line LvLog
                    "PrismaService.transaction: Entering interactive transaction." w))) with
      | (Resolved r, w') =>
          (Resolved r,
           add_event (EvCommit (next_ref w))
             (add_line LvLog
                "PrismaService.transaction: Callback executed. Transaction should commit." w'))
      | (Rejected e, w') =>
          (Rejected e,
           add_event (EvRollback (next_ref w))
             (add_line LvError
                "PrismaService.transaction: Callback failed. Transaction will rollback." w'))
      end.
Proof.
  intros T callback s w.
  match goal with
  | |- _ = match ?c with _ => _ end => destruct c as [[r|e] w'] eqn:E
  end;
    unfold Composed.transaction, PrismaClient.dollar_transaction,
      prismaClientContext.run, bind, try_catch, fresh, say, emit, modify, ret, throw;
    unfold begun in E; cbn [next_ref add_line bump] in E |- *;
    rewrite E; reflexivity.
Qed.

(** ** Reading the getter again and again *)

Lemma workaround_client_broken (w : World) :
  has_methods w = false ->
  Workaround.client None w
  = (Resolved (NewClient (next_ref w)),
     add_event (EvNew (next_ref w))
       (bump (add_line LvWarn
                "PrismaService.client: Default PrismaClient (this) is not fully initialized. Falling back to a new instance for non-transactional use. THIS IS A TEMPORARY WORKAROUND."
                (add_line LvLog "PrismaService.client: Using default Prisma client" w)))).
Proof.
  intros H. destruct w as [? [|[|]] ? ? ? ?]; try discriminate H; reflexivity.
Qed.

Lemma fallback_client_first (w : World) :
  has_methods w = false ->
  _fallbackPrismaClient w = None ->
  exists w1,
    Fallback.client None w = (Resolved (NewClient (next_ref w)), w1)
    /\ has_methods w1 = false
    /\ _fallbackPrismaClient w1 = Some (NewClient (next_ref w))
    /\ trace w1 = (trace w ++ [EvNew (next_ref w); EvConnect (NewClient (next_ref w))])%list.
Proof.
  intros H Hfb. destruct w as [? [|[|]] [?|] ? ? ?];
    try discriminate H; try discriminate Hfb;
    (eexists; split; [reflexivity|]; cbn; rewrite <- app_assoc; auto).
Qed.

Lemma fallback_client_cached (w : World) (h : Handle) :
  has_methods w = false ->
  _fallbackPrismaClient w = Some h ->
  exists w1,
    Fallback.client None w = (Resolved h, w1)
    /\ has_methods w1 = false
    /\ _fallbackPrismaClient w1 = Some h
    /\ trace w1 = trace w.
Proof.
  intros H Hfb. destruct w as [? [|[|]] [?|] ? ? ?];
    try discriminate H; try discriminate Hfb;
    cbn in Hfb; injection Hfb as ->;
    (eexists; split; [reflexivity|]; cbn; auto).
Qed.

Lemma reads_succ (k : nat) (getter : Async Handle) (s : option Handle)
    (w w1 : World) (h : Handle) :
  getter s w = (Resolved h, w1) ->
  reads (S k) getter s w
  = match reads k getter s w1 with
    | (Resolved hs, w2) => (Resolved (h :: hs), w2)
    | (Rejected e, w2) => (Rejected e, w2)
    end.
Proof.
  intros H. cbn [reads]. unfold bind at 1. rewrite H.
  unfold bind. destruct (reads k getter s w1) as [[hs|e] w2]; reflexivity.
Qed.

Lemma reads_fallback_cached (k : nat) (w : World) (h : Handle) :
  has_methods w = false ->
  _fallbackPrismaClient w = Some h ->
  fst (reads k Fallback.client None w) = Resolved (repeat h k)
  /\ trace (snd (reads k Fallback.client None w)) = trace w.
Proof.
  revert w. induction k as [|k IH]; intros w H Hfb; [split; reflexivity|].
  destruct (fallback_client_cached w h H Hfb) as (w1 & E & H1 & Hfb1 & Ht).
  rewrite (reads_succ k _ _ w w1 h E).
  destruct (IH w1 H1 Hfb1) as [Hr Htr].
  destruct (reads k Fallback.client None w1) as [[hs|e] w2];
    cbn in Hr, Htr |- *; [|discriminate Hr].
  injection Hr as ->. split; [reflexivity | congruence].
Qed.

(** X4: on a service whose [this] lacks its model methods, [n] reads of the
    temporary-workaround getter outside any transaction hand out [n]
    different clients, each built by its read: as many connection pools as
    reads. *)
Theorem workaround_reads_allocate_each_time
    (n : nat) (w : World) (Hbroken : has_methods w = false) :
  fst (reads n Workaround.client None w)
  = Resolved (map NewClient (seq (next_ref w) n))
  /\ allocated (snd (reads n Workaround.client None w)) = allocated w + n.
Proof.
  revert w Hbroken. induction n as [|n IH]; intros w H.
  - split; [reflexivity | cbn; lia].
  - rewrite (reads_succ n _ _ w _ _ (workaround_client_broken w H)).
    match goal with
    | |- context [reads n Workaround.client None ?w1] =>
        assert (H1 : has_methods w1 = false) by exact H;
        assert (Hn : next_ref w1 = S (next_ref w)) by reflexivity;
        assert (Ha : allocated w1 = S (allocated w))
          by (unfold allocated; cbn; rewrite allocated_in_app; cbn; lia);
        destruct (IH w1 H1) as [Hr Hal]; rewrite Hn in Hr; rewrite Ha in Hal;
        destruct (reads n Workaround.client None w1) as [[hs|e] w2]
    end; cbn in Hr, Hal |- *; [|discriminate Hr].
    injection Hr as ->. split; [reflexivity | lia].
Qed.

Lemma workaround_reads_allocate_each_time_witness :
  has_methods world0 = false
  /\ fst (reads 3 Workaround.client None world0)
     = Resolved [NewClient 0; NewClient 1; NewClient 2]
  /\ allocated (snd (reads 3 Workaround.client None world0)) = 3.
Proof.
  split; [reflexivity|].
  exact (workaround_reads_allocate_each_time 3 world0 eq_refl).
Defined.

(** X5: on a service whose [this] lacks its model methods and that has no
    fallback client yet, any number of reads of the fallback getter outside
    a transaction hand out one and the same client: it is built, and its
    [$connect] called, by the first read only. *)
Theorem fallback_reads_allocate_once
    (n : nat) (w : World)
    (Hbroken : has_methods w = false)
    (Hnone : _fallbackPrismaClient w = None) :
  fst (reads (S n) Fallback.client None w)
  = Resolved (repeat (NewClient (next_ref w)) (S n))
  /\ trace (snd (reads (S n) Fallback.client None w))
     = (trace w ++ [EvNew (next_ref w); EvConnect (NewClient (next_ref w))])%list.
Proof.
  destruct (fallback_client_first w Hbroken Hnone) as (w1 & E & H1 & Hfb1 & Ht).
  rewrite (reads_succ n _ _ w w1 _ E).
  destruct (reads_fallback_cached n w1 _ H1 Hfb1) as [Hr Htr].
  destruct (reads n Fallback.client None w1) as [[hs|e] w2];
    cbn in Hr, Htr |- *; [|discriminate Hr].
  injection Hr as ->. split; [reflexivity | congruence].
Qed.

Lemma fallback_reads_allocate_once_witness :
  has_methods world0 = false
  /\ _fallbackPrismaClient world0 = None
  /\ fst (reads 3 Fallback.client None world0)
     = Resolved [NewClient 0; NewClient 0; NewClient 0]
  /\ trace (snd (reads 3 Fallback.client None world0))
     = [EvNew 0; EvConnect (NewClient 0)].
Proof.
  split; [reflexivity|]. split; [reflexivity|].
  exact (fallback_reads_allocate_once 2 world0 eq_refl eq_refl).
Defined.

Lemma printed_errors_app (c d : list (Level * string)) :
  printed_errors (c ++ d) = printed_errors c + printed_errors d.
Proof.
  induction c as [|[[| | |] msg] c IH]; cbn; rewrite ?IH; reflexivity.
Qed.

(** X6: the inspecting getter is the getter of step 1 with a report on the
    console: it returns the same client, makes no call on the driver and
    changes nothing but the console, where, read outside a transaction, it
    prints exactly one error line when [this] lacks its model methods and
    none when it has them. *)
Theorem diagnostic_getter_only_reports :
  forall (s : option Handle) (w : World),
    fst (Diagnostic.client s w) = fst (Extends.client s w)
    /\ lifecycle (snd (Diagnostic.client s w)) = lifecycle w
    /\ user (snd (Diagnostic.client s w)) = user w
    /\ _fallbackPrismaClient (snd (Diagnostic.client s w)) = _fallbackPrismaClient w
    /\ next_ref (snd (Diagnostic.client s w)) = next_ref w
    /\ trace (snd (Diagnostic.client s w)) = trace w
    /\ printed_errors (console (snd (Diagnostic.client None w)))
       = printed_errors (console w) + (if has_methods w then 0 else 1).
Proof.
  intros s w.
  do 6 (split; [destruct s; by_cases_on_world w|]).
  by_cases_on_world w; cbn; rewrite !printed_errors_app; cbn; lia.
Qed.

(** ** The repository and the service of the readme *)

(** X7: every method of the repository makes its call on the client that
    is visible where it is called: the service's own client outside a
    transaction, the transaction's client inside one.  This holds by scope,
    not by method: the service method commented as non-transactional, when
    called in the callback of [transaction], queries through the
    transaction's client. *)
Theorem repository_calls_follow_scope :
  forall (db : Users.Delegate) (data : Users.UserCreateInput) (n : nat)
         (where_ : Users.UserWhereUniqueInput) (upd : Users.UserUpdateInput)
         (s : option Handle) (w : World),
    Users.Repository.createUser Extends.client db data s w
    = Users.create db (js_or s ServiceClient) data s w
    /\ Users.Repository.findUserById Extends.client db n s w
       = Users.findUnique db (js_or s ServiceClient) (Users.ById n) s w
    /\ Users.Repository.updateUser Extends.client db where_ upd s w
       = Users.update db (js_or s ServiceClient) where_ upd s w
    /\ Users.Repository.deleteUser Extends.client db where_ s w
       = Users.delete db (js_or s ServiceClient) where_ s w
    /\ Extends.transaction
         (fun _ => Users.Service.findUserById Extends.client db n) s w
       = settle (next_ref w)
           (Users.findUnique db (TxClient (next_ref w)) (Users.ById n)
              (Some (TxClient (next_ref w)))
              (add_line LvLog "Service: Finding user by ID (non-transactional)"
                 (begun w))).
Proof.
  intros. repeat split.
  rewrite transaction_unfold. reflexivity.
Qed.

Lemma explicit_steps_unfold (db : Users.Delegate) (userData : Users.UserCreateInput)
    (profileData : string) (s : option Handle) (w : World) :
  Users.ExplicitService.createUserAndProfile db userData profileData s w
  = settle (next_ref w)
      (Users.createUserAndProfile_steps Workaround.client db userData
         (Some (TxClient (next_ref w)))
         (begun (add_line LvLog
            "Service: Starting createUserAndProfile (explicit transactional)" w))).
Proof.
  unfold Users.ExplicitService.createUserAndProfile.
  unfold bind at 1. unfold say at 1, modify at 1.
  change (@Workaround.transaction Users.User) with (@Extends.transaction Users.User).
  rewrite transaction_unfold. reflexivity.
Qed.

(** How the steps go on after [createUser], with a transaction client in
    scope and the getter of the workaround. *)
Lemma steps_after_create (db : Users.Delegate) (userData : Users.UserCreateInput)
    (tx : Handle) (w w1 : World) (u : Users.User) :
  Users.create db tx userData (Some tx)
    (add_line LvLog "PrismaService.client: Using transaction client" w)
  = (Resolved u, w1) ->
  Users.createUserAndProfile_steps Workaround.client db userData (Some tx) w
  = if String.eqb (Users.create_email userData) "error@example.com" then
      (Rejected simulated_error,
       add_line LvError "Service: Simulating an error to trigger rollback."
         (add_line LvLog ("Service: User created with ID: "
                          ++ Users.number_text (Users.id u)) w1))
    else
      match Users.update db tx (Users.ById (Users.id u))
              (Users.mkUpdateInput (Some (Users.name u ++ " (Updated)")) None)
              (Some tx)
              (add_line LvLog "PrismaService.client: Using transaction client"
                 (add_line LvLog ("Service: User created with ID: "
                                  ++ Users.number_text (Users.id u)) w1)) with
      | (Resolved _, w2) =>
          (Resolved u,
           add_line LvLog ("Service: User " ++ Users.number_text (Users.id u)
                           ++ " updated within the same transaction.") w2)
      | (Rejected e, w2) => (Rejected e, w2)
      end.
Proof.
  intros H.
  unfold Users.createUserAndProfile_steps, Users.Repository.createUser,
    Users.Repository.updateUser, Workaround.client, prismaClientContext.getStore.
  unfold bind, say, modify, ret, throw. rewrite H.
  destruct (String.eqb (Users.create_email userData) "error@example.com");
    [reflexivity|].
  destruct (Users.update _ _ _ _ _ _) as [[u'|e] w2]; reflexivity.
Qed.

(** X8: [createUserAndProfile], in the version that opens the transaction
    itself, called for the address [error@example.com]: once the user has
    been created through the transaction's client, the call rejects with
    the simulated error and the transaction is rolled back; no update is
    issued. *)
Theorem explicit_createUserAndProfile_rolls_back
    (db : Users.Delegate) (userData : Users.UserCreateInput) (profileData : string)
    (s : option Handle) (w w1 : World) (u : Users.User)
    (Hemail : Users.create_email userData = "error@example.com")
    (Hcreate : Users.create db (TxClient (next_ref w)) userData
                 (Some (TxClient (next_ref w)))
                 (add_line LvLog "PrismaService.client: Using transaction client"
                    (begun (add_line LvLog
                       "Service: Starting createUserAndProfile (explicit transactional)" w)))
               = (Resolved u, w1)) :
  Users.ExplicitService.createUserAndProfile db userData profileData s w
  = (Rejected simulated_error,
     add_event (EvRollback (next_ref w))
       (add_line LvError "Service: Simulating an error to trigger rollback."
          (add_line LvLog ("Service: User created with ID: "
                           ++ Users.number_text (Users.id u)) w1))).
Proof.
  rewrite explicit_steps_unfold.
  rewrite (steps_after_create db userData _ _ w1 u Hcreate).
  rewrite Hemail. reflexivity.
Qed.

Lemma explicit_createUserAndProfile_rolls_back_witness :
  fst (Users.ExplicitService.createUserAndProfile Users.printing_delegate
         (Users.mkCreateInput "Ann" "error@example.com") "bio" None world0)
  = Rejected simulated_error
  /\ trace (snd (Users.ExplicitService.createUserAndProfile Users.printing_delegate
                   (Users.mkCreateInput "Ann" "error@example.com") "bio" None world0))
     = [EvBegin 0; EvRollback 0].
Proof.
  rewrite (explicit_createUserAndProfile_rolls_back Users.printing_delegate
             (Users.mkCreateInput "Ann" "error@example.com") "bio" None world0
             _ _ eq_refl eq_refl).
  split; reflexivity.
Defined.

(** X9: [createUserAndProfile], in the version that opens the transaction
    itself, called for another address: when the creation and the update
    both succeed, the update is issued through the same transaction client,
    for the id of the created user and the name followed by [" (Updated)"];
    the transaction is committed, and the call returns the user as created,
    not as updated. *)
Theorem explicit_createUserAndProfile_commits
    (db : Users.Delegate) (userData : Users.UserCreateInput) (profileData : string)
    (s : option Handle) (w w1 w2 : World) (u u' : Users.User)
    (Hemail : String.eqb (Users.create_email userData) "error@example.com" = false)
    (Hcreate : Users.create db (TxClient (next_ref w)) userData
                 (Some (TxClient (next_ref w)))
                 (add_line LvLog "PrismaService.client: Using transaction client"
                    (begun (add_line LvLog
                       "Service: Starting createUserAndProfile (explicit transactional)" w)))
               = (Resolved u, w1))
    (Hupdate : Users.update db (TxClient (next_ref w)) (Users.ById (Users.id u))
                 (Users.mkUpdateInput (Some (Users.name u ++ " (Updated)")) None)
                 (Some (TxClient (next_ref w)))
                 (add_line LvLog "PrismaService.client: Using transaction client"
                    (add_line LvLog ("Service: User created with ID: "
                                     ++ Users.number_text (Users.id u)) w1))
               = (Resolved u', w2)) :
  Users.ExplicitService.createUserAndProfile db userData profileData s w
  = (Resolved u,
     add_event (EvCommit (next_ref w))
       (add_line LvLog ("Service: User " ++ Users.number_text (Users.id u)
                        ++ " updated within the same transaction.") w2)).
Proof.
  rewrite explicit_steps_unfold.
  rewrite (steps_after_create db userData _ _ w1 u Hcreate).
  rewrite Hemail, Hupdate. reflexivity.
Qed.

Lemma explicit_createUserAndProfile_commits_witness :
  fst (Users.ExplicitService.createUserAndProfile Users.printing_delegate
         (Users.mkCreateInput "Ann" "ann@example.com") "bio" None world0)
  = Resolved (Users.mkUser 1 "Ann" "ann@example.com")
  /\ trace (snd (Users.ExplicitService.createUserAndProfile Users.printing_delegate
                   (Users.mkCreateInput "Ann" "ann@example.com") "bio" None world0))
     = [EvBegin 0; EvCommit 0].
Proof.
  rewrite (explicit_createUserAndProfile_commits Users.printing_delegate
             (Users.mkCreateInput "Ann" "ann@example.com") "bio" None world0
             _ _ _ _ eq_refl eq_refl eq_refl).
  split; reflexivity.
Defined.

(** X10: when the update fails after the user has been created, the call
    rejects with the error of the update, unchanged, and the transaction in
    which the user was created is rolled back; the line that reports the
    update is not printed. *)
Theorem explicit_createUserAndProfile_update_fails
    (db : Users.Delegate) (userData : Users.UserCreateInput) (profileData : string)
    (s : option Handle) (w w1 w2 : World) (u : Users.User) (e : Thrown)
    (Hemail : String.eqb (Users.create_email userData) "error@example.com" = false)
    (Hcreate : Users.create db (TxClient (next_ref w)) userData
                 (Some (TxClient (next_ref w)))
                 (add_line LvLog "PrismaService.client: Using transaction client"
                    (begun (add_line LvLog
                       "Service: Starting createUserAndProfile (explicit transactional)" w)))
               = (Resolved u, w1))
    (Hupdate : Users.update db (TxClient (next_ref w)) (Users.ById (Users.id u))
                 (Users.mkUpdateInput (Some (Users.name u ++ " (Updated)")) None)
                 (Some (TxClient (next_ref w)))
                 (add_line LvLog "PrismaService.client: Using transaction client"
                    (add_line LvLog ("Service: User created with ID: "
                                     ++ Users.number_text (Users.id u)) w1))
               = (Rejected e, w2)) :
  Users.ExplicitService.createUserAndProfile db userData profileData s w
  = (Rejected e, add_event (EvRollback (next_ref w)) w2).
Proof.
  rewrite explicit_steps_unfold.
  rewrite (steps_after_create db userData _ _ w1 u Hcreate).
  rewrite Hemail, Hupdate. reflexivity.
Qed.

Lemma explicit_createUserAndProfile_update_fails_witness :
  fst (Users.ExplicitService.createUserAndProfile Users.update_failing_delegate
         (Users.mkCreateInput "Ann" "ann@example.com") "bio" None world0)
  = Rejected Users.record_not_found
  /\ trace (snd (Users.ExplicitService.createUserAndProfile
                   Users.update_failing_delegate
                   (Users.mkCreateInput "Ann" "ann@example.com") "bio" None world0))
     = [EvBegin 0; EvRollback 0].
Proof.
  rewrite (explicit_createUserAndProfile_update_fails Users.update_failing_delegate
             (Users.mkCreateInput "Ann" "ann@example.com") "bio" None world0
             _ _ _ _ eq_refl eq_refl eq_refl).
  split; reflexivity.
Defined.

(** How the steps go on after [createUser], with the getter of step 1. *)
Lemma steps_after_create_step1 (db : Users.Delegate)
    (userData : Users.UserCreateInput) (s : option Handle) (w w1 : World)
    (u : Users.User) :
  Users.create db (js_or s ServiceClient) userData s w = (Resolved u, w1) ->
  Users.createUserAndProfile_steps Extends.client db userData s w
  = if String.eqb (Users.create_email userData) "error@example.com" then
      (Rejected simulated_error,
       add_line LvError "Service: Simulating an error to trigger rollback."
         (add_line LvLog ("Service: User created with ID: "
                          ++ Users.number_text (Users.id u)) w1))
    else
      match Users.update db (js_or s ServiceClient) (Users.ById (Users.id u))
              (Users.mkUpdateInput (Some (Users.name u ++ " (Updated)")) None) s
              (add_line LvLog ("Service: User created with ID: "
                               ++ Users.number_text (Users.id u)) w1) with
      | (Resolved _, w2) =>
          (Resolved u,
           add_line LvLog ("Service: User " ++ Users.number_text (Users.id u)
                           ++ " updated within the same transaction.") w2)
      | (Rejected e, w2) => (Rejected e, w2)
      end.
Proof.
  intros H.
  unfold Users.createUserAndProfile_steps, Users.Repository.createUser,
    Users.Repository.updateUser, Extends.client, prismaClientContext.getStore.
  unfold bind, say, modify, ret, throw. rewrite H.
  destruct (String.eqb (Users.create_email userData) "error@example.com");
    [reflexivity|].
  destruct (Users.update _ _ _ _ _ _) as [[u'|e] w2]; reflexivity.
Qed.

(** X11: [createUserAndProfile] of the service marked [@Transactional()],
    run through the interceptor as a marked handler for the address
    [error@example.com]: the user is created through the client of the
    transaction the interceptor opened, the simulated error comes out of the
    interceptor unchanged, and that transaction is rolled back. *)
Theorem intercepted_createUserAndProfile_rolls_back
    (db : Users.Delegate) (userData : Users.UserCreateInput) (profileData : string)
    (s : option Handle) (w w1 : World) (u : Users.User)
    (Hemail : Users.create_email userData = "error@example.com")
    (Hcreate : Users.create db (TxClient (next_ref w)) userData
                 (Some (TxClient (next_ref w)))
                 (add_line LvLog "Service: Starting createUserAndProfile"
                    (begun (add_line LvDebug "Starting database transaction..." w)))
               = (Resolved u, w1)) :
  PrismaTransactionInterceptor.intercept true
    (CallHandler.handle
       (Users.Service.createUserAndProfile Extends.client db userData profileData))
    s w
  = (Rejected simulated_error,
     add_line LvError
       "Failed to execute transaction: Simulated error during profile creation."
       (add_event (EvRollback (next_ref w))
          (add_line LvError
             "Transaction rolled back due to error: Simulated error during profile creation."
             (add_line LvError "Service: Simulating an error to trigger rollback."
                (add_line LvLog ("Service: User created with ID: "
                                 ++ Users.number_text (Users.id u)) w1))))).
Proof.
  rewrite intercept_equation.
  unfold CallHandler.handle, rxjs.from, Users.Service.createUserAndProfile.
  unfold bind at 1. unfold bind at 1. unfold say at 1, modify at 1.
  rewrite (steps_after_create_step1 db userData (Some (TxClient (next_ref w)))
             _ w1 u Hcreate).
  rewrite Hemail. reflexivity.
Qed.

Lemma intercepted_createUserAndProfile_rolls_back_witness :
  fst (PrismaTransactionInterceptor.intercept true
         (CallHandler.handle
            (Users.Service.createUserAndProfile Extends.client Users.printing_delegate
               (Users.mkCreateInput "Ann" "error@example.com") "bio")) None world0)
  = Rejected simulated_error
  /\ trace (snd (PrismaTransactionInterceptor.intercept true
                   (CallHandler.handle
                      (Users.Service.createUserAndProfile Extends.client
                         Users.printing_delegate
                         (Users.mkCreateInput "Ann" "error@example.com") "bio"))
                   None world0))
     = [EvBegin 0; EvRollback 0].
Proof.
  rewrite (intercepted_createUserAndProfile_rolls_back Users.printing_delegate
             (Users.mkCreateInput "Ann" "error@example.com") "bio" None world0
             _ _ eq_refl eq_refl).
  split; reflexivity.
Defined.

(** X12: the same method run as a handler that is not marked, outside any
    transaction: the user is created through the service's own client, the
    simulated error comes out, and nothing is rolled back: what the creation
    did to the world stays, with two more lines on the console. *)
Theorem unmarked_createUserAndProfile_keeps_the_user
    (db : Users.Delegate) (userData : Users.UserCreateInput) (profileData : string)
    (w w1 : World) (u : Users.User)
    (Hemail : Users.create_email userData = "error@example.com")
    (Hcreate : Users.create db ServiceClient userData None
                 (add_line LvLog "Service: Starting createUserAndProfile" w)
               = (Resolved u, w1)) :
  PrismaTransactionInterceptor.intercept false
    (CallHandler.handle
       (Users.Service.createUserAndProfile Extends.client db userData profileData))
    None w
  = (Rejected simulated_error,
     add_line LvError "Service: Simulating an error to trigger rollback."
       (add_line LvLog ("Service: User created with ID: "
                        ++ Users.number_text (Users.id u)) w1)).
Proof.
  rewrite intercept_equation.
  unfold CallHandler.handle, rxjs.from, Users.Service.createUserAndProfile.
  unfold bind at 1. unfold bind at 1. unfold say at 1, modify at 1.
  rewrite (steps_after_create_step1 db userData None _ w1 u Hcreate).
  rewrite Hemail. reflexivity.
Qed.

Lemma unmarked_createUserAndProfile_keeps_the_user_witness :
  PrismaTransactionInterceptor.intercept false
    (CallHandler.handle
       (Users.Service.createUserAndProfile Extends.client Users.printing_delegate
          (Users.mkCreateInput "Ann" "error@example.com") "bio")) None world0
  = (Rejected simulated_error,
     mkWorld Uninitialized UserMissing None 0 []
       [(LvLog, "Service: Starting createUserAndProfile");
        (LvLog, "user.create on service");
        (LvLog, "Service: User created with ID: 1");
        (LvError, "Service: Simulating an error to trigger rollback.")] []).
Proof.
  rewrite (unmarked_createUserAndProfile_keeps_the_user Users.printing_delegate
             (Users.mkCreateInput "Ann" "error@example.com") "bio" world0
             _ _ eq_refl eq_refl).
  reflexivity.
Defined.

(** ** The versions that keep an identifier, further *)

(** X23: the [transaction] that draws an identifier settles as its callback
    does: the callback runs under the record of the new client and of the
    identifier drawn; a returned value is handed on after the commit; an
    error is handed on unchanged after its line of log and the rollback
    when its [message] can be read, and is replaced by the [TypeError] of
    that read, with no line of log, when the callback threw [undefined] or
    [null]. *)
Theorem identified_transaction_outcome :
  forall (T : Type) (callback : Scoped TransactionStore T)
         (s : option TransactionStore) (w : World),
    Identified.transaction callback s w
    = match callback
              (Some (mkStore (TxClient (next_ref w)) (next_transactionId w)))
              (received (next_transactionId w)
                 (announced "Entering interactive transaction." w)) with
      | (Resolved r, w') =>
          (Resolved r,
           add_event (EvCommit (next_ref w))
             (add_line LvLog
                ("[TX:" ++ next_transactionId w
                 ++ "] PrismaService.transaction: Callback executed. Transaction should commit.")
                w'))
      | (Rejected e, w') =>
          match message_text e with
          | inl type_error =>
              (Rejected (ThrownError type_error),
               add_event (EvRollback (next_ref w)) w')
          | inr text =>
              (Rejected e,
               add_event (EvRollback (next_ref w))
                 (add_line LvError
                    ("[TX:" ++ next_transactionId w
                     ++ "] PrismaService.transaction: Callback failed. Transaction will rollback. Error: "
                     ++ text) w'))
          end
      end.
Proof.
  intros T callback s w. rewrite identified_transaction_unfold.
  destruct (callback _ _) as [[r|e] w']; [reflexivity|].
  unfold finish, caught. destruct (message_text e); reflexivity.
Qed.

(** X24: [getLogPrefix] gives [[NO_TX]] outside a transaction and leaves the
    world as it is; in the callback of a root call of the last version, and
    in the callback of any number of calls nested in it, it gives the
    identifier of the root; with the version before, which does not join,
    it gives in a nested callback the identifier the nested call drew. *)
Theorem log_prefix_names_the_transaction_in_scope :
  (forall w : World, getLogPrefix None w = (Resolved "[NO_TX]", w))
  /\ (forall (depth : nat) (w : World),
         fst (Joining.transaction (joined depth getLogPrefix) None w)
         = Resolved ("[TX:" ++ next_transactionId w ++ "]"))
  /\ (forall (s : option TransactionStore) (w : World),
         fst (Identified.transaction (Identified.transaction getLogPrefix) s w)
         = Resolved ("[TX:" ++ next_transactionId (drawn w) ++ "]")).
Proof.
  split; [reflexivity|]. split.
  - intros depth w. rewrite joining_root_unfold, joined_unfold. reflexivity.
  - intros s w. rewrite identified_transaction_unfold.
    rewrite identified_transaction_unfold. reflexivity.
Qed.

(** X25: with the [transaction] of step 1, whatever the innermost callback
    of [depth + 1] nested calls throws, an error object or any other value,
    [undefined] included, comes out of the outermost call as it is, and
    every one of the native transactions is rolled back, innermost first. *)
Theorem nested_calls_rethrow_any_value
    (T : Type) (depth : nat) (callback : Handle -> Async T)
    (e : Thrown) (s : option Handle) (w w' : World)
    (Hcallback : callback (TxClient (next_ref w + depth))
                   (Some (TxClient (next_ref w + depth))) (entered depth w)
                 = (Rejected e, w')) :
  nested depth callback s w = (Rejected e, unwound depth (next_ref w) w')
  /\ trace (unwound depth (next_ref w) w')
     = (trace w' ++ map EvRollback (rev (seq (next_ref w) (S depth))))%list.
Proof.
  split; [exact (nested_rejects depth callback e s w w' Hcallback)|].
  apply trace_unwound.
Qed.

Lemma nested_calls_rethrow_any_value_witness :
  nested 1 (fun _ : Handle => throw (S := Handle) (A := unit) ThrownUndefined)
    None world0
  = (Rejected ThrownUndefined, unwound 1 0 (entered 1 world0))
  /\ trace (unwound 1 0 (entered 1 world0))
     = [EvBegin 0; EvBegin 1; EvRollback 1; EvRollback 0].
Proof.
  exact (nested_calls_rethrow_any_value unit 1
           (fun _ : Handle => throw (S := Handle) (A := unit) ThrownUndefined)
           ThrownUndefined None world0 (entered 1 world0) eq_refl).
Defined.

(** X26: in the last version an error object thrown by the innermost of any
    number of nested calls passes every joining call as it is, reaches the
    root call, and comes out of it unchanged after the rollback of the one
    native transaction of the graph. *)
Theorem joined_failure_rolls_back_the_root :
  forall (T : Type) (depth : nat) (e : JsError) (w : World),
    fst (Joining.transaction (joined depth (throw (A := T) (ThrownError e))) None w)
    = Rejected (ThrownError e)
    /\ trace (snd (Joining.transaction
                     (joined depth (throw (A := T) (ThrownError e))) None w))
       = (trace w ++ [EvBegin (next_ref w); EvRollback (next_ref w)])%list.
Proof.
  intros T depth e w. rewrite joining_root_unfold, joined_unfold.
  unfold throw, finish, caught. cbn [message_text fst snd trace add_event add_line].
  split; [reflexivity|].
  rewrite trace_reused. cbn. rewrite <- app_assoc. reflexivity.
Qed.

(** * Further properties of the decorator *)

Module DecoratorProperties.
Import Decorator.

Lemma decorate_method (key : string) (d : Descriptor) (f : nat) :
  descriptor_value d = JsFunction f ->
  key <> "constructor" ->
  decorate key d = Wrapped f.
Proof.
  intros Hd Hkey. unfold decorate. rewrite Hd.
  apply String.eqb_neq in Hkey. rewrite Hkey. reflexivity.
Qed.

Lemma decorate_other (key : string) (d : Descriptor) :
  key = "constructor" \/ typeof (descriptor_value d) <> "function" ->
  decorate key d = Kept d.
Proof.
  intros [-> | Hd]; unfold decorate.
  - destruct (descriptor_value d); reflexivity.
  - destruct (descriptor_value d); try reflexivity.
    exfalso. apply Hd. reflexivity.
Qed.

(** X15: of the properties of the prototype the decorator replaces exactly
    the data properties whose value is a function, the constructor apart:
    such a method is replaced by the wrapper of that very function; the
    constructor, accessors and values that are not functions keep their
    descriptor. *)
Theorem decorator_wraps_methods_only
    (prototype : list (string * Descriptor)) (key : string) (d : Descriptor)
    (Hthere : lookup key prototype = Some d) :
  (forall f : nat,
      descriptor_value d = JsFunction f -> key <> "constructor" ->
      lookup key (withTransactionClient prototype) = Some (Wrapped f))
  /\ (key = "constructor" \/ typeof (descriptor_value d) <> "function" ->
      lookup key (withTransactionClient prototype) = Some (Kept d)).
Proof.
  assert (H : lookup key (withTransactionClient prototype)
              = Some (decorate key d)).
  { revert Hthere. induction prototype as [|[k d0] rest IH]; [discriminate|].
    cbn [withTransactionClient map lookup fst snd].
    destruct (String.eqb key k) eqn:E; [|exact IH].
    apply String.eqb_eq in E. subst k. intros [= ->]. reflexivity. }
  split.
  - intros f Hd Hkey. rewrite H, (decorate_method key d f Hd Hkey). reflexivity.
  - intros Hother. rewrite H, (decorate_other key d Hother). reflexivity.
Qed.

Lemma decorator_wraps_methods_only_witness :
  lookup "findUserById" UsersRepository.prototype
  = Some (DataDescriptor (JsFunction 1))
  /\ lookup "findUserById" (withTransactionClient UsersRepository.prototype)
     = Some (Wrapped 1)
  /\ lookup "constructor" (withTransactionClient UsersRepository.prototype)
     = Some (Kept (DataDescriptor (JsFunction 0)))
  /\ lookup "client" (withTransactionClient UsersRepository.prototype)
     = Some (Kept (AccessorDescriptor (JsFunction 3) JsUndefined)).
Proof.
  split; [reflexivity|].
  split; [|split].
  - apply (proj1 (decorator_wraps_methods_only UsersRepository.prototype
                    "findUserById" _ eq_refl) 1 eq_refl).
    apply String.eqb_neq. reflexivity.
  - apply (proj2 (decorator_wraps_methods_only UsersRepository.prototype
                    "constructor" _ eq_refl)).
    left. reflexivity.
  - apply (proj2 (decorator_wraps_methods_only UsersRepository.prototype
                    "client" _ eq_refl)).
    right. discriminate.
Defined.

Lemma scan_down_spec (args : list JsValue) (n : nat) :
  (-1 <= scan_down args n < Z.of_nat n)%Z
  /\ (scan_down args n = (-1)%Z
      \/ is_transaction_client (nth (Z.to_nat (scan_down args n)) args JsUndefined)
         = true)
  /\ (forall j : nat,
         (scan_down args n < Z.of_nat j < Z.of_nat n)%Z ->
         is_transaction_client (nth j args JsUndefined) = false).
Proof.
  induction n as [|i IH].
  - cbn. split; [lia|]. split; [left; reflexivity | intros j Hj; lia].
  - cbn [scan_down].
    destruct (is_transaction_client (nth i args JsUndefined)) eqn:E.
    + split; [lia|]. split; [|intros j Hj; lia].
      right. rewrite Nat2Z.id. exact E.
    + destruct IH as (Hb & Hf & Hafter).
      split; [lia|]. split; [exact Hf|].
      intros j Hj.
      destruct (Nat.eq_dec j i) as [->|Hne]; [exact E|].
      apply Hafter. lia.
Qed.

(** X16: the index the wrapper finds is that of the last argument that is a
    transaction client (an object, not [null], whose [$transaction] is a
    function): it lies between [-1] and the number of arguments, it is [-1]
    or points at such an argument, and no argument after it is one; so it
    is [-1] exactly when no argument is a transaction client. *)
Theorem txArgIndex_is_the_last_client :
  forall args : list JsValue,
    (-1 <= txArgIndex args < Z.of_nat (length args))%Z
    /\ (txArgIndex args = (-1)%Z
        \/ is_transaction_client
             (nth (Z.to_nat (txArgIndex args)) args JsUndefined) = true)
    /\ (forall j : nat,
           (txArgIndex args < Z.of_nat j < Z.of_nat (length args))%Z ->
           is_transaction_client (nth j args JsUndefined) = false).
Proof. intros args. apply scan_down_spec. Qed.

Lemma txArgIndex_is_the_last_client_witness :
  txArgIndex [JsObject [("$transaction", JsFunction 3)]; JsNull;
              JsObject [("$transaction", JsFunction 4)]; JsNumber 1] = 2%Z
  /\ is_transaction_client
       (nth 3 [JsObject [("$transaction", JsFunction 3)]; JsNull;
               JsObject [("$transaction", JsFunction 4)]; JsNumber 1] JsUndefined)
     = false.
Proof.
  split; [reflexivity|].
  apply (proj2 (proj2 (txArgIndex_is_the_last_client
                         [JsObject [("$transaction", JsFunction 3)]; JsNull;
                          JsObject [("$transaction", JsFunction 4)]; JsNumber 1]))).
  cbn. lia.
Defined.

Lemma after_first_paren_plain (name rest : string) :
  plain name = true ->
  after_first_paren (name ++ String "("%char rest) = Some rest.
Proof.
  induction name as [|c name IH]; intros H; [reflexivity|].
  cbn in H |- *.
  destruct (Ascii.eqb c "("%char); [discriminate H|].
  destruct (is_line_terminator c); [discriminate H|].
  apply IH. exact H.
Qed.

(** X17: the rewriting of the head of a source text strips the name of a
    function declaration, leaves every text that does not start with
    [function] as it is, and rewriting twice is rewriting once. *)
Theorem replace_function_head_strips_the_name :
  (forall name rest : string,
      plain name = true ->
      replace_function_head ("function" ++ name ++ String "("%char rest)
      = "function(" ++ rest)
  /\ (forall s : string,
         starts_with "function" s = false -> replace_function_head s = s)
  /\ (forall s : string,
         replace_function_head (replace_function_head s) = replace_function_head s).
Proof.
  split; [|split].
  - intros name rest H. unfold replace_function_head.
    assert (E1 : starts_with "function"
                   ("function" ++ name ++ String "("%char rest) = true)
      by (cbn; destruct (name ++ String "("%char rest); reflexivity).
    assert (E2 : drop 8 ("function" ++ name ++ String "("%char rest)
                 = name ++ String "("%char rest)
      by reflexivity.
    rewrite E1, E2, (after_first_paren_plain name rest H). reflexivity.
  - intros s H. unfold replace_function_head. rewrite H. reflexivity.
  - intros s.
    assert (Hs : replace_function_head s = s
                 \/ exists rest, replace_function_head s = "function(" ++ rest).
    { unfold replace_function_head.
      destruct (starts_with "function" s); [|left; reflexivity].
      destruct (after_first_paren (drop 8 s)) as [rest|];
        [right; exists rest; reflexivity | left; reflexivity]. }
    destruct Hs as [H | [rest H]]; rewrite H; [exact H | reflexivity].
Qed.

Lemma replace_function_head_strips_the_name_witness :
  plain " findUserById" = true
  /\ replace_function_head "function findUserById(id) { return id; }"
     = "function(id) { return id; }".
Proof.
  split; [reflexivity|].
  exact (proj1 replace_function_head_strips_the_name
           " findUserById" "id) { return id; }" eq_refl).
Defined.

(** ** The body cut out of a source text *)

Lemma str_length_app (a b : string) :
  String.length (a ++ b) = String.length a + String.length b.
Proof. induction a as [|c a IH]; cbn; [reflexivity | rewrite IH; reflexivity]. Qed.

Lemma str_app_assoc (a b c : string) : (a ++ b) ++ c = a ++ (b ++ c).
Proof. induction a as [|x a IH]; cbn; [reflexivity | rewrite IH; reflexivity]. Qed.

Lemma indexOf_from_app (c : ascii) (h t : string) (i : Z) :
  has_char c h = false ->
  indexOf_from c (h ++ String c t) i = (i + Z.of_nat (String.length h))%Z.
Proof.
  revert i. induction h as [|x h IH]; intros i H.
  - cbn. rewrite Ascii.eqb_refl. lia.
  - cbn in H. apply orb_false_iff in H as [Hx Hh].
    cbn [String.append indexOf_from String.length]. rewrite Hx, (IH _ Hh). lia.
Qed.

Lemma indexOf_from_absent (c : ascii) (s : string) (i : Z) :
  has_char c s = false -> indexOf_from c s i = (-1)%Z.
Proof.
  revert i. induction s as [|x s IH]; intros i H; [reflexivity|].
  cbn in H. apply orb_false_iff in H as [Hx Hs].
  cbn. rewrite Hx. apply IH. exact Hs.
Qed.

Lemma lastIndexOf_from_end (c : ascii) (s : string) (i last : Z) :
  lastIndexOf_from c (s ++ String c "") i last
  = (i + Z.of_nat (String.length s))%Z.
Proof.
  revert i last. induction s as [|x s IH]; intros i last.
  - cbn. rewrite Ascii.eqb_refl. lia.
  - cbn [String.append lastIndexOf_from String.length]. rewrite IH. lia.
Qed.

Lemma lastIndexOf_from_absent (c : ascii) (s : string) (i last : Z) :
  has_char c s = false -> lastIndexOf_from c s i last = last.
Proof.
  revert i last. induction s as [|x s IH]; intros i last H; [reflexivity|].
  cbn in H. apply orb_false_iff in H as [Hx Hs].
  cbn. rewrite Hx. apply IH. exact Hs.
Qed.

Lemma substring_zero (t : string) : String.substring 0 0 t = "".
Proof. destruct t; reflexivity. Qed.

Lemma substring_prefix (b t : string) :
  String.substring 0 (String.length b) (b ++ t) = b.
Proof.
  induction b as [|c b IH]; cbn; [apply substring_zero | rewrite IH; reflexivity].
Qed.

Lemma substring_app_skip (h t : string) (n m : nat) :
  String.substring (String.length h + n) m (h ++ t) = String.substring n m t.
Proof. induction h as [|c h IH]; cbn; [reflexivity | exact IH]. Qed.

Lemma substring_but_last (s : string) :
  String.substring 0 (String.length s - 1) s = but_last s.
Proof.
  induction s as [|c s IH]; [reflexivity|].
  destruct s as [|d s']; [reflexivity|].
  cbn [String.length Nat.sub] in IH |- *. rewrite Nat.sub_0_r in *.
  cbn [String.substring but_last]. f_equal. exact IH.
Qed.

Lemma prefix_app_false (p h : string) (c : ascii) (t : string) :
  String.prefix p h = false ->
  has_char c p = false ->
  String.prefix p (h ++ String c t) = false.
Proof.
  revert p. induction h as [|b h IH]; intros p Hp Hc.
  - destruct p as [|a p]; [discriminate Hp|].
    cbn in Hc. apply orb_false_iff in Hc as [Hca _].
    cbn. destruct (ascii_dec a c) as [->|]; [|reflexivity].
    rewrite Ascii.eqb_refl in Hca. discriminate Hca.
  - destruct p as [|a p]; [discriminate Hp|].
    cbn in Hc. apply orb_false_iff in Hc as [_ Hcp].
    cbn in Hp |- *. destruct (ascii_dec a b); [|reflexivity].
    apply IH; assumption.
Qed.

Lemma slice_between (fs : string) (a n : nat) :
  a + n <= String.length fs ->
  slice fs (Z.of_nat a) (Z.of_nat (a + n))
  = if Nat.eqb n 0 then "" else String.substring a n fs.
Proof.
  intros H. unfold slice.
  replace (Z.of_nat a <? 0)%Z with false by (symmetry; apply Z.ltb_ge; lia).
  replace (Z.of_nat (a + n) <? 0)%Z with false by (symmetry; apply Z.ltb_ge; lia).
  rewrite !Z.min_l by lia.
  destruct n as [|n].
  - rewrite Nat.add_0_r, Z.ltb_irrefl. reflexivity.
  - replace (Z.of_nat a <? Z.of_nat (a + S n))%Z with true
      by (symmetry; apply Z.ltb_lt; lia).
    rewrite Nat2Z.id.
    replace (Z.to_nat (Z.of_nat (a + S n) - Z.of_nat a)) with (S n) by lia.
    reflexivity.
Qed.

Lemma slice_drop_last (s : string) :
  slice s 0 (-1) = String.substring 0 (String.length s - 1) s.
Proof.
  unfold slice. cbv zeta beta.
  change (0 <? 0)%Z with false. change (-1 <? 0)%Z with true. cbv iota.
  rewrite Z.min_l by lia.
  destruct (Z.ltb_spec 0 (Z.max (Z.of_nat (String.length s) + -1) 0)) as [H|H].
  - replace (Z.to_nat (Z.max (Z.of_nat (String.length s) + -1) 0 - 0))
      with (String.length s - 1) by lia.
    reflexivity.
  - replace (String.length s - 1) with 0 by lia.
    symmetry. apply substring_zero.
Qed.

(** X18: from the source text of a method, [head { body }] with no brace in
    the head, the wrapper cuts out exactly the body, whatever braces the
    body itself holds: the text between the first ["{"] and the last ["}"]. *)
Theorem methodBody_of_a_method
    (head b : string)
    (Hhead : has_char "{"%char head = false)
    (Hmethod : starts_with "function" head = false) :
  methodBody (head ++ "{" ++ b ++ "}") = b.
Proof.
  unfold methodBody, functionString, replace_function_head.
  change (head ++ "{" ++ b ++ "}") with (head ++ String "{"%char (b ++ "}")).
  unfold starts_with in *.
  rewrite (prefix_app_false "function" head "{"%char (b ++ "}") Hmethod eq_refl).
  unfold indexOf. rewrite (indexOf_from_app _ _ _ _ Hhead).
  replace (head ++ String "{"%char (b ++ "}"))
    with ((head ++ String "{"%char b) ++ String "}"%char "") at 2
    by (rewrite str_app_assoc; reflexivity).
  unfold lastIndexOf. rewrite lastIndexOf_from_end.
  rewrite str_length_app. cbn [String.length].
  replace (0 + Z.of_nat (String.length head) + 1)%Z
    with (Z.of_nat (String.length head + 1)) by lia.
  replace (0 + Z.of_nat (String.length head + S (String.length b)))%Z
    with (Z.of_nat (String.length head + 1 + String.length b)) by lia.
  rewrite slice_between
    by (rewrite str_length_app; cbn [String.length];
        rewrite str_length_app; cbn; lia).
  destruct b as [|c b]; [reflexivity|].
  cbn [String.length Nat.eqb].
  rewrite substring_app_skip.
  change (String.substring 1 (S (String.length b))
            (String "{"%char (String c b ++ "}")))
    with (String.substring 0 (String.length (String c b)) (String c b ++ "}")).
  apply substring_prefix.
Qed.

Lemma methodBody_of_a_method_witness :
  has_char "{"%char "findUserById(id) " = false
  /\ starts_with "function" "findUserById(id) " = false
  /\ methodBody (UsersRepository.toString 1)
     = " return this.prisma.user.findUnique({ where: { id } }); ".
Proof.
  split; [reflexivity|]. split; [reflexivity|].
  exact (methodBody_of_a_method "findUserById(id) "
           " return this.prisma.user.findUnique({ where: { id } }); "
           eq_refl eq_refl).
Defined.

(** X19: from a source text that holds no brace once its head is rewritten,
    such as an arrow function with an expression body, the wrapper cuts out
    the text without its last character: [indexOf] and [lastIndexOf] both
    answer [-1], and [slice(0, -1)] drops the end. *)
Theorem methodBody_without_braces
    (source : string)
    (Hopen : has_char "{"%char (functionString source) = false)
    (Hclose : has_char "}"%char (functionString source) = false) :
  methodBody source = but_last (functionString source).
Proof.
  unfold methodBody. set (fs := functionString source) in *.
  unfold indexOf, lastIndexOf.
  rewrite (indexOf_from_absent _ _ _ Hopen), (lastIndexOf_from_absent _ _ _ _ Hclose).
  change (-1 + 1)%Z with 0%Z.
  rewrite <- substring_but_last. apply slice_drop_last.
Qed.

Lemma methodBody_without_braces_witness :
  methodBody "x => x + 1" = "x => x + ".
Proof.
  exact (methodBody_without_braces "x => x + 1" eq_refl eq_refl).
Defined.

(** X20: under the rule of the grammar by which [const x = e as ...] does
    not parse, no call of a wrapped method reaches the original method:
    whatever the class, the method, the receiver, the arguments and the
    heap, the call throws, the [TypeError] of reading [prisma] of
    [undefined] or of [null] when no argument is a transaction client and
    the receiver is one of the two, the [SyntaxError] of the [Function]
    constructor otherwise, and the heap is left as it was. *)
Theorem wrapped_method_never_reaches_the_original
    (St : Type) (toString : nat -> string)
    (apply : nat -> JsValue -> list JsValue -> St -> Outcome JsValue * St)
    (prototype : list (string * Descriptor)) (key : string) (f : nat)
    (this : JsValue) (args : list JsValue) (st : St)
    (Hmethod : lookup key prototype = Some (DataDescriptor (JsFunction f)))
    (Hkey : key <> "constructor") :
  call_decorated St toString apply ecma_accepts
    (withTransactionClient prototype) key this args st
  = (Rejected (if negb (txArgIndex args >? -1)%Z && is_nullish this
               then TypeError_cannot_read this "prisma"
               else SyntaxError_unexpected_identifier), st).
Proof.
  rewrite (DecoratorFacts.call_decorated_is_wrapper St toString apply
             ecma_accepts prototype key f this args st Hmethod Hkey).
  rewrite DecoratorFacts.wrapper_outcome, DecoratorFacts.generated_body_rejected.
  destruct (negb (txArgIndex args >? -1)%Z && is_nullish this); reflexivity.
Qed.

Lemma wrapped_method_never_reaches_the_original_witness :
  call_decorated (list string) UsersRepository.toString UsersRepository.apply
    ecma_accepts (withTransactionClient UsersRepository.prototype)
    "findUserById" UsersRepository.instance
    [JsNumber 7; JsObject [("$transaction", JsFunction 9)]] []
  = (Rejected SyntaxError_unexpected_identifier, []).
Proof.
  apply (wrapped_method_never_reaches_the_original (list string)
           UsersRepository.toString UsersRepository.apply
           UsersRepository.prototype "findUserById" 1 UsersRepository.instance
           [JsNumber 7; JsObject [("$transaction", JsFunction 9)]] []).
  - reflexivity.
  - apply String.eqb_neq. reflexivity.
Defined.

(** X21: the wrapper takes an argument for a transaction client exactly
    when it is an object with a property [$transaction] whose value is a
    function; [null], though its [typeof] is ["object"], primitives and
    functions are never taken for one. *)
Theorem transaction_client_is_an_object_with_the_method :
  forall v : JsValue,
    is_transaction_client v = true <->
    exists (props : list (string * JsValue)) (f : nat),
      v = JsObject props /\ lookup "$transaction" props = Some (JsFunction f).
Proof.
  intros v. split.
  - destruct v as [| | b | z | t | props | g]; try discriminate.
    unfold is_transaction_client, get_prop. cbn [typeof is_null negb andb].
    destruct (lookup "$transaction" props) as [[| | b | z | t | ps | f]|] eqn:E;
      try discriminate.
    intros _. exists props, f. split; [reflexivity | exact E].
  - intros (props & f & -> & E).
    unfold is_transaction_client, get_prop. rewrite E. reflexivity.
Qed.

End DecoratorProperties.

(** X22: two root calls of [transaction] made one after the other each show
    their callback the client of their own native transaction, and the two
    clients differ: the second call does not find the first one's client in
    its scope. *)
Theorem sequential_roots_get_distinct_clients :
  forall (s : option Handle) (w : World),
    fst ((a <- Extends.transaction (fun tx => seen <- Extends.client ;; ret (tx, seen)) ;;
          b <- Extends.transaction (fun tx => seen <- Extends.client ;; ret (tx, seen)) ;;
          after <- Extends.client ;;
          ret (a, b, after)) s w)
    = Resolved (TxClient (next_ref w), TxClient (next_ref w),
                (TxClient (S (next_ref w)), TxClient (S (next_ref w))),
                js_or s ServiceClient)
    /\ TxClient (next_ref w) <> TxClient (S (next_ref w)).
Proof.
  intros s w. split.
  - unfold bind at 1 2. rewrite !transaction_unfold. reflexivity.
  - intros [= H]. lia.
Qed.
